(** * Footy Rater: the rating engine and the JSON match store

    A shallow embedding of [ratingEngine.js] (class [FootballRatingEngine]),
    of the in-memory/JSON [database.js] (class [FootballDatabase]), of the
    data-fetch client [apiService.js] (class [FootballAPIService]) and of
    the routes of [server.js] that rate, save and list matches, with the
    properties of the specification, and further properties read off the
    code, stated over the embedded functions.

    Conventions of the embedding.
    - JavaScript numbers that the program only ever uses as integers
      (scores, minutes, row ids) are [Z]; [Math.round] is the identity on
      them.
    - An optional object field is an [option]; [None] is JavaScript's
      [undefined].
    - A [forEach] over an array that updates local variables is a
      [fold_left] of a step function over the list, the accumulator being
      the variables the callback assigns.
    - A call that can raise returns an [outcome].
    - What a function reads from outside (the clock, the disk, the data
      files, [Math.random]) is an argument of its embedding. *)

From Stdlib Require Import ZArith List String Bool Lia DecimalString Sorted Permutation.
Import ListNotations.
Local Open Scope string_scope.
Local Open Scope Z_scope.

(** ** JavaScript completions *)

Inductive outcome (A : Type) : Type :=
| Return (a : A)
| Throw (e : string).
Arguments Return {A} a.
Arguments Throw {A} e.

(** [Math.round] restricted to the integers. *)
Definition Math_round (x : Z) : Z := x.

(** The text a template literal produces for an integer number. *)
Definition Number_toString (x : Z) : string :=
  NilZero.string_of_int (Z.to_int x).

(** ** JavaScript array and string built-ins *)

Section ArraySort.
Context {A : Type}.
Variable compareFn : A -> A -> Z.

(** [array.sort(compareFn)].  The sort is stable, so with a consistent
    [compareFn] its result is determined: the ordered arrangement in
    which elements that compare equal keep their input order.  It is
    computed by insertion: an element goes in front of the first element
    of the sorted rest that it does not have to follow. *)
Fixpoint Array_sort_insert (x : A) (l : list A) : list A :=
  match l with
  | [] => [x]
  | y :: t =>
    if compareFn x y <=? 0 then x :: y :: t
    else y :: Array_sort_insert x t
  end.

Definition Array_sort (l : list A) : list A :=
  fold_right Array_sort_insert [] l.

(** [x] may stand in front of [y]: [compareFn(x, y)] is not positive. *)
Definition inOrder (x y : A) : Prop := compareFn x y <= 0.

End ArraySort.

(** [array.slice(0, end)] for an integer [end]: a negative [end] counts
    from the end of the array. *)
Definition Array_slice_0 {A : Type} (end_ : Z) (l : list A) : list A :=
  let len := Z.of_nat (List.length l) in
  let k := if end_ <? 0 then Z.max (len + end_) 0 else Z.min end_ len in
  firstn (Z.to_nat k) l.

(** [s.includes(searchString)]: [searchString] occurs at some position
    of [s]. *)
Fixpoint String_includes (searchString s : string) : bool :=
  prefix searchString s
  || match s with
     | EmptyString => false
     | String _ rest => String_includes searchString rest
     end.

(** [Math.max(...xs)] on a non-empty array [x :: xs]. *)
Definition Math_max (x : Z) (xs : list Z) : Z := fold_left Z.max xs x.

(** [Math.min(...xs)] on a non-empty array [x :: xs]. *)
Definition Math_min (x : Z) (xs : list Z) : Z := fold_left Z.min xs x.

(** ** Data model *)

(** A goal object [{ team, minute, scorer, type }].  [team] is an
    arbitrary string: the engine compares it with ['home'] and ['away']
    and ignores every other value. *)
Record GoalEvent : Type := {
  team : string;
  minute : option Z;
  scorer : option string;
  type : option string
}.

(** The [goals] property of a match object: absent, [null], or an array. *)
Inductive GoalsField : Type :=
| GoalsAbsent
| GoalsNull
| GoalsArray (l : list GoalEvent).

(** A match object as [apiService.formatMatches] builds it and as
    [calculateRating] and [saveMatch] destructure it. *)
Record MatchData : Type := {
  id : Z;
  homeTeam : string;
  awayTeam : string;
  homeScore : Z;
  awayScore : Z;
  date : string;
  status : string;
  competition : string;
  goals : GoalsField
}.

Record RatingBreakdown : Type := {
  goalVolume : Z;
  goalTiming : Z;
  goalDistribution : Z
}.

(** The [match] property of a rating ([match] is reserved in Rocq). *)
Record MatchSummary : Type := {
  summaryHomeTeam : string;
  summaryAwayTeam : string;
  score : string;
  totalGoals : Z
}.

Record RatingResult : Type := {
  totalScore : Z;
  breakdown : RatingBreakdown;
  rating : string;
  match_ : MatchSummary
}.

(** ** ratingEngine.js *)

Module FootballRatingEngine.

Definition maxGoalVolumeScore : Z := 50.
Definition maxGoalTimingScore : Z := 25.
Definition maxGoalDistributionScore : Z := 25.

Definition calculateGoalVolumeScore (totalGoals : Z) : Z :=
  if totalGoals =? 0 then 0
  else if totalGoals =? 1 then 5
  else if totalGoals =? 2 then 15
  else if totalGoals =? 3 then 25
  else if totalGoals =? 4 then 35
  else if totalGoals =? 5 then 45
  else 50.

(** [goal.minute || 0] *)
Definition minute_or_0 (goal : GoalEvent) : Z :=
  match minute goal with
  | Some m => m
  | None => 0
  end.

(** The body of the [forEach] callback of [calculateGoalTimingScore];
    the accumulator is the local [score]. *)
Definition timingStep (score : Z) (goal : GoalEvent) : Z :=
  let minute := minute_or_0 goal in
  let score := if minute <=? 15 then score + 3 else score in
  let score := if minute >=? 75 then score + 3 else score in
  let score := if minute >=? 90 then score + 5 else score in
  let score := if minute >=? 80 then score + 2 else score in
  score.

Definition calculateGoalTimingScore (goals : list GoalEvent) : Z :=
  let score := fold_left timingStep goals 0 in
  Z.min score maxGoalTimingScore.

(** [goal.minute >= 80]: the comparison is false when [minute] is
    [undefined]. *)
Definition minute_ge_80 (goal : GoalEvent) : bool :=
  match minute goal with
  | Some m => m >=? 80
  | None => false
  end.

(** The variables the [forEach] callback of
    [calculateGoalDistributionScore] assigns. *)
Record Walk : Type := {
  walkScore : Z;
  homeGoals : Z;
  awayGoals : Z
}.

Definition distributionStep (w : Walk) (goal : GoalEvent) : Walk :=
  if (team goal =? "home")%string then
    let homeGoals := homeGoals w + 1 in
    let awayGoals := awayGoals w in
    let score := walkScore w in
    let score :=
      if (homeGoals >? awayGoals) && (awayGoals >? 0) then score + 4 else score in
    let score :=
      if (homeGoals =? awayGoals) && (awayGoals >? 0) then score + 3 else score in
    let score :=
      if minute_ge_80 goal && (homeGoals >? awayGoals) then score + 2 else score in
    {| walkScore := score; homeGoals := homeGoals; awayGoals := awayGoals |}
  else if (team goal =? "away")%string then
    let homeGoals := homeGoals w in
    let awayGoals := awayGoals w + 1 in
    let score := walkScore w in
    let score :=
      if (awayGoals >? homeGoals) && (homeGoals >? 0) then score + 4 else score in
    let score :=
      if (awayGoals =? homeGoals) && (homeGoals >? 0) then score + 3 else score in
    let score :=
      if minute_ge_80 goal && (awayGoals >? homeGoals) then score + 2 else score in
    {| walkScore := score; homeGoals := homeGoals; awayGoals := awayGoals |}
  else w.

(** The state on entry to the [forEach]: the both-teams-scored bonus has
    been added and the running tallies are zero. *)
Definition walkStart (matchData : MatchData) : Walk :=
  let score := 0 in
  let score :=
    if (homeScore matchData >? 0) && (awayScore matchData >? 0)
    then score + 15 else score in
  {| walkScore := score; homeGoals := 0; awayGoals := 0 |}.

Definition calculateGoalDistributionScore
    (matchData : MatchData) (goals : list GoalEvent) : Z :=
  let w := fold_left distributionStep goals (walkStart matchData) in
  Z.min (walkScore w) maxGoalDistributionScore.

Definition getRatingCategory (score : Z) : string :=
  if score >=? 90 then "ALL TIME LEGENDARY"
  else if score >=? 75 then "AMAZING"
  else if score >=? 60 then "REALLY Good"
  else if score >=? 30 then "Good"
  else if score >=? 15 then "Average"
  else "Very Poor".

(** [calculateRating].  The destructuring default [goals = []] applies
    to an absent property only; on [null] the first [goals.forEach]
    raises a [TypeError]. *)
Definition calculateRating (matchData : MatchData) : outcome RatingResult :=
  let goals_or_default :=
    match goals matchData with
    | GoalsAbsent => Some []
    | GoalsArray l => Some l
    | GoalsNull => None
    end in
  match goals_or_default with
  | None => Throw "TypeError"
  | Some goals =>
    let goalVolumeScore :=
      calculateGoalVolumeScore (homeScore matchData + awayScore matchData) in
    let goalTimingScore := calculateGoalTimingScore goals in
    let goalDistributionScore :=
      calculateGoalDistributionScore matchData goals in
    let totalScore := goalVolumeScore + goalTimingScore + goalDistributionScore in
    Return
      {| totalScore := Math_round totalScore;
         breakdown :=
           {| goalVolume := Math_round goalVolumeScore;
              goalTiming := Math_round goalTimingScore;
              goalDistribution := Math_round goalDistributionScore |};
         rating := getRatingCategory totalScore;
         match_ :=
           {| summaryHomeTeam := homeTeam matchData;
              summaryAwayTeam := awayTeam matchData;
              score :=
                (Number_toString (homeScore matchData) ++ "-"
                 ++ Number_toString (awayScore matchData))%string;
              totalGoals := homeScore matchData + awayScore matchData |} |}
  end.

Definition getRatingColor (score : Z) : string :=
  if score >=? 90 then "#22c55e"
  else if score >=? 75 then "#84cc16"
  else if score >=? 60 then "#eab308"
  else if score >=? 40 then "#f97316"
  else if score >=? 20 then "#ef4444"
  else "#dc2626".

End FootballRatingEngine.

(** ** database.js (the in-memory / JSON-file store) *)

(** A row of [this.matches].  The [goals] column holds the text
    [JSON.stringify(goals || [])]; it is represented by the array that
    text encodes. *)
Module MatchRow.
Record t : Type := {
  id : Z;
  api_id : Z;
  home_team : string;
  away_team : string;
  home_score : Z;
  away_score : Z;
  date : string;
  status : string;
  competition : string;
  goals : list GoalEvent;
  watchability_score : Z;
  rating_category : string;
  created_at : string
}.
End MatchRow.

(** A row of [this.ratings]. *)
Module RatingRow.
Record t : Type := {
  id : Z;
  match_id : Z;
  goal_volume_score : Z;
  goal_timing_score : Z;
  goal_distribution_score : Z;
  total_score : Z;
  rating_category : string;
  created_at : string
}.
End RatingRow.

(** The [rating] property of an object the read methods return. *)
Module PresentedRating.
Record t : Type := {
  totalScore : Z;
  breakdown : RatingBreakdown;
  category : string
}.
End PresentedRating.

(** An object of the arrays [getAllMatches], [getMatchesByCompetition]
    and [getTopRatedMatches] return. *)
Module PresentedMatch.
Record t : Type := {
  id : Z;
  apiId : Z;
  homeTeam : string;
  awayTeam : string;
  homeScore : Z;
  awayScore : Z;
  date : string;
  status : string;
  competition : string;
  goals : list GoalEvent;
  rating : option PresentedRating.t
}.
End PresentedMatch.

(** What [loadData] finds at the path of a data file: no file, a file
    on which [readFileSync] or [JSON.parse] raises, or the array of rows
    the file encodes. *)
Inductive DataFile (A : Type) : Type :=
| FileMissing
| FileCorrupt
| FileRows (rows : list A).
Arguments FileMissing {A}.
Arguments FileCorrupt {A}.
Arguments FileRows {A} rows.

(** What one call of [saveMatch] reads from outside the store: the two
    readings of the clock ([new Date().toISOString()]) and whether the
    [fs.writeFileSync] calls of [saveData] succeed. *)
Record World : Type := {
  nowMatch : string;
  nowRating : string;
  writeFileSync_ok : bool
}.

Module FootballDatabase.

Record t : Type := {
  matches : list MatchRow.t;
  ratings : list RatingRow.t;
  nextMatchId : Z;
  nextRatingId : Z;
  isVercel : bool
}.

(** [constructor]; [vercel] is the value of
    [process.env.NODE_ENV === 'production' && process.env.VERCEL === '1']. *)
Definition constructor (vercel : bool) : t :=
  {| matches := [];
     ratings := [];
     nextMatchId := 1;
     nextRatingId := 1;
     isVercel := vercel |}.

Definition sampleGoal (team : string) (minute : Z) : GoalEvent :=
  {| team := team; minute := Some minute;
     scorer := Some "Unknown"; type := Some "REGULAR" |}.

Definition loadInitialData (db : t) : t :=
  {| matches :=
       [ {| MatchRow.id := 1;
            MatchRow.api_id := 537817;
            MatchRow.home_team := "Arsenal FC";
            MatchRow.away_team := "Nottingham Forest FC";
            MatchRow.home_score := 3;
            MatchRow.away_score := 0;
            MatchRow.date := "2025-09-13T11:30:00Z";
            MatchRow.status := "FINISHED";
            MatchRow.competition := "Premier League";
            MatchRow.goals :=
              [sampleGoal "home" 13; sampleGoal "home" 66; sampleGoal "home" 80];
            MatchRow.watchability_score := 35;
            MatchRow.rating_category := "Good";
            MatchRow.created_at := "2025-09-19T01:38:50.774Z" |};
         {| MatchRow.id := 2;
            MatchRow.api_id := 537815;
            MatchRow.home_team := "AFC Bournemouth";
            MatchRow.away_team := "Brighton & Hove Albion FC";
            MatchRow.home_score := 2;
            MatchRow.away_score := 1;
            MatchRow.date := "2025-09-13T14:00:00Z";
            MatchRow.status := "FINISHED";
            MatchRow.competition := "Premier League";
            MatchRow.goals :=
              [sampleGoal "home" 15; sampleGoal "home" 37; sampleGoal "away" 83];
            MatchRow.watchability_score := 48;
            MatchRow.rating_category := "Good";
            MatchRow.created_at := "2025-09-19T01:38:50.777Z" |};
         {| MatchRow.id := 3;
            MatchRow.api_id := 551941;
            MatchRow.home_team := "Juventus FC";
            MatchRow.away_team := "Borussia Dortmund";
            MatchRow.home_score := 4;
            MatchRow.away_score := 4;
            MatchRow.date := "2025-09-16T19:00:00Z";
            MatchRow.status := "FINISHED";
            MatchRow.competition := "UEFA Champions League";
            MatchRow.goals :=
              [sampleGoal "home" 12; sampleGoal "away" 26; sampleGoal "home" 38;
               sampleGoal "home" 51; sampleGoal "away" 55; sampleGoal "away" 55;
               sampleGoal "away" 60; sampleGoal "home" 83];
            MatchRow.watchability_score := 83;
            MatchRow.rating_category := "AMAZING";
            MatchRow.created_at := "2025-09-19T01:38:50.818Z" |} ];
     ratings :=
       [ {| RatingRow.id := 1;
            RatingRow.match_id := 1;
            RatingRow.goal_volume_score := 25;
            RatingRow.goal_timing_score := 6;
            RatingRow.goal_distribution_score := 4;
            RatingRow.total_score := 35;
            RatingRow.rating_category := "Good";
            RatingRow.created_at := "2025-09-19T01:38:50.774Z" |};
         {| RatingRow.id := 2;
            RatingRow.match_id := 2;
            RatingRow.goal_volume_score := 25;
            RatingRow.goal_timing_score := 9;
            RatingRow.goal_distribution_score := 14;
            RatingRow.total_score := 48;
            RatingRow.rating_category := "Good";
            RatingRow.created_at := "2025-09-19T01:38:50.777Z" |};
         {| RatingRow.id := 3;
            RatingRow.match_id := 3;
            RatingRow.goal_volume_score := 50;
            RatingRow.goal_timing_score := 20;
            RatingRow.goal_distribution_score := 13;
            RatingRow.total_score := 83;
            RatingRow.rating_category := "AMAZING";
            RatingRow.created_at := "2025-09-19T01:38:50.818Z" |} ];
     nextMatchId := 4;
     nextRatingId := 4;
     isVercel := isVercel db |}.

(** [saveData]: nothing is written in Vercel mode; otherwise a failing
    [fs.writeFileSync] is logged and re-raised.  The contents of the two
    files are not part of the model. *)
Definition saveData (w : World) (db : t) : outcome unit :=
  if isVercel db then Return tt
  else if writeFileSync_ok w then Return tt
  else Throw "Error".

(** [goals || []] *)
Definition goals_or_empty (g : GoalsField) : list GoalEvent :=
  match g with
  | GoalsArray l => l
  | GoalsAbsent | GoalsNull => []
  end.

(** [saveMatch] returns its completion and the store it leaves.  The
    body has no [await], so a call runs to completion without
    interleaving.  The rows are pushed before [saveData] runs, so they
    stay in the arrays when [saveData] raises. *)
Definition saveMatch (matchData : MatchData) (ratingData : RatingResult)
    (w : World) (db : t) : outcome Z * t :=
  let existingMatch :=
    find (fun m => MatchRow.api_id m =? id matchData) (matches db) in
  match existingMatch with
  | Some existingMatch => (Return (MatchRow.id existingMatch), db)
  | None =>
    let newMatch :=
      {| MatchRow.id := nextMatchId db;
         MatchRow.api_id := id matchData;
         MatchRow.home_team := homeTeam matchData;
         MatchRow.away_team := awayTeam matchData;
         MatchRow.home_score := homeScore matchData;
         MatchRow.away_score := awayScore matchData;
         MatchRow.date := date matchData;
         MatchRow.status := status matchData;
         MatchRow.competition := competition matchData;
         MatchRow.goals := goals_or_empty (goals matchData);
         MatchRow.watchability_score := totalScore ratingData;
         MatchRow.rating_category := rating ratingData;
         MatchRow.created_at := nowMatch w |} in
    let newRating :=
      {| RatingRow.id := nextRatingId db;
         RatingRow.match_id := MatchRow.id newMatch;
         RatingRow.goal_volume_score := goalVolume (breakdown ratingData);
         RatingRow.goal_timing_score := goalTiming (breakdown ratingData);
         RatingRow.goal_distribution_score :=
           goalDistribution (breakdown ratingData);
         RatingRow.total_score := totalScore ratingData;
         RatingRow.rating_category := rating ratingData;
         RatingRow.created_at := nowRating w |} in
    let db' :=
      {| matches := matches db ++ [newMatch];
         ratings := ratings db ++ [newRating];
         nextMatchId := nextMatchId db + 1;
         nextRatingId := nextRatingId db + 1;
         isVercel := isVercel db |} in
    match saveData w db' with
    | Return _ => (Return (MatchRow.id newMatch), db')
    | Throw e => (Throw e, db')
    end
  end.

(** The stores the class builds by itself: a fresh object, the sample
    data of [loadInitialData], and whatever [saveMatch] leaves. *)
Inductive reachable : t -> Prop :=
| reachable_constructor vercel :
    reachable (constructor vercel)
| reachable_loadInitialData db :
    reachable db -> reachable (loadInitialData db)
| reachable_saveMatch db matchData ratingData w :
    reachable db -> reachable (snd (saveMatch matchData ratingData w db)).

(** The rows stored for an external identifier, and the rating rows
    stored for an internal match id. *)
Definition matchesWithApiId (apiId : Z) (db : t) : list MatchRow.t :=
  filter (fun m => MatchRow.api_id m =? apiId) (matches db).

Definition ratingsOfMatch (matchId : Z) (db : t) : list RatingRow.t :=
  filter (fun r => RatingRow.match_id r =? matchId) (ratings db).

(** The invariant of the store: external identifiers and internal ids
    are unique, every id is below the counter, and the rating rows list
    the match ids in the order of the match rows. *)
Definition consistent (db : t) : Prop :=
  NoDup (map MatchRow.api_id (matches db))
  /\ NoDup (map MatchRow.id (matches db))
  /\ Forall (fun m => MatchRow.id m < nextMatchId db) (matches db)
  /\ map RatingRow.match_id (ratings db) = map MatchRow.id (matches db).

(** [loadData].  The [try] block assigns [this.matches] and its counter
    before it reads the ratings file; the [catch] block empties both
    arrays and leaves the counters as they are at that point. *)
Definition loadData (matchesFile : DataFile MatchRow.t)
    (ratingsFile : DataFile RatingRow.t) (db : t) : t :=
  let emptied (db : t) : t :=
    {| matches := [];
       ratings := [];
       nextMatchId := nextMatchId db;
       nextRatingId := nextRatingId db;
       isVercel := isVercel db |} in
  let afterMatches : option t :=
    match matchesFile with
    | FileMissing => Some db
    | FileCorrupt => None
    | FileRows rows =>
      Some
        {| matches := rows;
           ratings := ratings db;
           nextMatchId :=
             match map MatchRow.id rows with
             | [] => nextMatchId db
             | x :: xs => Math_max x xs + 1
             end;
           nextRatingId := nextRatingId db;
           isVercel := isVercel db |}
    end in
  match afterMatches with
  | None => emptied db
  | Some db1 =>
    match ratingsFile with
    | FileMissing => db1
    | FileCorrupt => emptied db1
    | FileRows rows =>
      {| matches := matches db1;
         ratings := rows;
         nextMatchId := nextMatchId db1;
         nextRatingId :=
           match map RatingRow.id rows with
           | [] => nextRatingId db1
           | x :: xs => Math_max x xs + 1
           end;
         isVercel := isVercel db1 |}
    end
  end.

(** The two files as a successful [saveData] leaves them:
    [JSON.parse] gives back the rows [JSON.stringify] was given. *)
Definition matchesFileOf (db : t) : DataFile MatchRow.t := FileRows (matches db).
Definition ratingsFileOf (db : t) : DataFile RatingRow.t := FileRows (ratings db).

(** [s || 'Unknown'] on a string. *)
Definition or_Unknown (s : string) : string :=
  match s with
  | EmptyString => "Unknown"
  | String _ _ => s
  end.

(** The callback of the [map] of the three read methods.  [x || 0] is
    [x] on a number, and the two columns tested against [null] are never
    [null] in a row of type [MatchRow.t], so [ratingData] is an object. *)
Definition presentMatch (db : t) (row : MatchRow.t) : PresentedMatch.t :=
  let rating :=
    find (fun r => RatingRow.match_id r =? MatchRow.id row) (ratings db) in
  let breakdown :=
    {| goalVolume :=
         match rating with
         | Some r => RatingRow.goal_volume_score r
         | None => 0
         end;
       goalTiming :=
         match rating with
         | Some r => RatingRow.goal_timing_score r
         | None => 0
         end;
       goalDistribution :=
         match rating with
         | Some r => RatingRow.goal_distribution_score r
         | None => 0
         end |} in
  let ratingData :=
    Some
      {| PresentedRating.totalScore := MatchRow.watchability_score row;
         PresentedRating.breakdown := breakdown;
         PresentedRating.category := or_Unknown (MatchRow.rating_category row) |} in
  {| PresentedMatch.id := MatchRow.id row;
     PresentedMatch.apiId := MatchRow.api_id row;
     PresentedMatch.homeTeam := MatchRow.home_team row;
     PresentedMatch.awayTeam := MatchRow.away_team row;
     PresentedMatch.homeScore := MatchRow.home_score row;
     PresentedMatch.awayScore := MatchRow.away_score row;
     PresentedMatch.date := MatchRow.date row;
     PresentedMatch.status := MatchRow.status row;
     PresentedMatch.competition := MatchRow.competition row;
     PresentedMatch.goals := MatchRow.goals row;
     PresentedMatch.rating := ratingData |}.

Section Reads.
(** [new Date(s).getTime()] for the date strings of the rows; a string
    that is no date is outside the model. *)
Variable Date_getTime : string -> Z.

(** [(a, b) => new Date(b.date) - new Date(a.date)] *)
Definition byDateDescending (a b : PresentedMatch.t) : Z :=
  Date_getTime (PresentedMatch.date b) - Date_getTime (PresentedMatch.date a).

Definition getAllMatches (db : t) : list PresentedMatch.t :=
  let processedMatches := map (presentMatch db) (matches db) in
  Array_sort byDateDescending processedMatches.

Definition getMatchesByCompetition (competition : string) (db : t)
    : list PresentedMatch.t :=
  let filteredMatches :=
    if (competition =? "Champions League")%string then
      filter (fun m => String_includes "Champions League" (MatchRow.competition m))
             (matches db)
    else if (competition =? "Premier League")%string then
      filter (fun m => String_includes "Premier League" (MatchRow.competition m))
             (matches db)
    else
      filter (fun m => (MatchRow.competition m =? competition)%string)
             (matches db) in
  let processedMatches := map (presentMatch db) filteredMatches in
  Array_sort byDateDescending processedMatches.

End Reads.

(** [(a, b) => (b.watchability_score || 0) - (a.watchability_score || 0)] *)
Definition byScoreDescending (a b : MatchRow.t) : Z :=
  MatchRow.watchability_score b - MatchRow.watchability_score a.

Definition getTopRatedMatches (limit : Z) (db : t) : list PresentedMatch.t :=
  let sortedMatches := Array_sort byScoreDescending (matches db) in
  let topMatches := Array_slice_0 limit sortedMatches in
  map (presentMatch db) topMatches.

(** Internal ids are handed out consecutively from 1, and the counters
    are one past the last id. *)
Definition sequential (db : t) : Prop :=
  map MatchRow.id (matches db)
  = map Z.of_nat (seq 1 (List.length (matches db)))
  /\ nextMatchId db = Z.of_nat (List.length (matches db)) + 1
  /\ map RatingRow.id (ratings db)
     = map Z.of_nat (seq 1 (List.length (ratings db)))
  /\ nextRatingId db = Z.of_nat (List.length (ratings db)) + 1.

End FootballDatabase.

(** ** apiService.js *)

(** The parts of a match object of the football-data.org API that the
    service reads. *)
Module ApiTeam.
Record t : Type := {
  id : Z;
  name : string
}.
End ApiTeam.

(** A goal of the API: [team.id], [minute], [scorer.name], [type]. *)
Module ApiGoal.
Record t : Type := {
  team_id : Z;
  minute : Z;
  scorer_name : string;
  type : option string
}.
End ApiGoal.

(** [score.fullTime.home] and [score.fullTime.away] are [null] or a
    number; [goals] is absent or an array. *)
Module ApiMatch.
Record t : Type := {
  id : Z;
  homeTeam : ApiTeam.t;
  awayTeam : ApiTeam.t;
  fullTime_home : option Z;
  fullTime_away : option Z;
  utcDate : string;
  status : string;
  competition_name : string;
  goals : option (list ApiGoal.t)
}.
End ApiMatch.

Module FootballAPIService.

Definition maxCallsPerMinute : Z := 10.

(** [enforceRateLimit] up to its [await]: the calls of the last minute
    that stay in [callHistory], and the time to wait when the limit is
    reached and [waitTime > 0]. *)
Definition rateLimitWait (now : Z) (callHistory : list Z) : list Z * option Z :=
  let oneMinuteAgo := now - 60 * 1000 in
  let callHistory := filter (fun timestamp => timestamp >? oneMinuteAgo) callHistory in
  match callHistory with
  | [] => (callHistory, None)
  | x :: xs =>
    if Z.of_nat (List.length callHistory) >=? maxCallsPerMinute then
      let oldestCall := Math_min x xs in
      let waitTime := (oldestCall + 60 * 1000) - now in
      if waitTime >? 0 then (callHistory, Some waitTime) else (callHistory, None)
    else (callHistory, None)
  end.

(** [enforceRateLimit] for a caller that runs alone; [afterWait] is the
    reading of [Date.now()] once the timer has fired. *)
Definition enforceRateLimit (now afterWait : Z) (callHistory : list Z) : list Z :=
  let (callHistory, wait) := rateLimitWait now callHistory in
  let callHistory :=
    match wait with
    | Some _ =>
      filter (fun timestamp => timestamp >? afterWait - 60 * 1000) callHistory
    | None => callHistory
    end in
  callHistory ++ [now].

(** [x || 0] on a score that is [null] or a number. *)
Definition score_or_0 (x : option Z) : Z :=
  match x with
  | Some n => n
  | None => 0
  end.

(** [x || 'REGULAR'] on a goal type that is absent or a string. *)
Definition type_or_REGULAR (x : option string) : string :=
  match x with
  | Some (String _ _ as s) => s
  | Some EmptyString | None => "REGULAR"
  end.

(** [(a, b) => a.minute - b.minute]; the difference is [NaN] when a
    minute is absent, which [sort] reads as 0. *)
Definition byMinute (a b : GoalEvent) : Z :=
  match minute a, minute b with
  | Some x, Some y => x - y
  | _, _ => 0
  end.

(** The goals one of the two [for] loops of the fallback pushes:
    [count] goals of [team], the loop taking the results
    [random first], [random (first + 1)], ... of
    [Math.floor(Math.random() * 90)]. *)
Definition dummyGoals (team : string) (count : Z) (random : nat -> Z)
    (first : nat) : list GoalEvent :=
  map (fun k =>
         {| team := team;
            minute := Some (random k + 1);
            scorer := Some "Unknown";
            type := Some "REGULAR" |})
      (seq first (Z.to_nat count)).

(** [extractGoals]; [random k] is the value of
    [Math.floor(Math.random() * 90)] at the k-th call of [Math.random]
    and [used] the number of calls made before.  The result is the
    sorted array and the number of calls made so far. *)
Definition extractGoals (random : nat -> Z) (used : nat) (match_ : ApiMatch.t)
    : list GoalEvent * nat :=
  let real :=
    match ApiMatch.goals match_ with
    | Some ((_ :: _) as l) => Some l
    | Some [] | None => None
    end in
  match real with
  | Some apiGoals =>
    let goals :=
      map (fun goal =>
             let isHomeTeam :=
               ApiGoal.team_id goal =? ApiTeam.id (ApiMatch.homeTeam match_) in
             {| team := if isHomeTeam then "home" else "away";
                minute := Some (ApiGoal.minute goal);
                scorer := Some (ApiGoal.scorer_name goal);
                type := Some (type_or_REGULAR (ApiGoal.type goal)) |})
          apiGoals in
    (Array_sort byMinute goals, used)
  | None =>
    let homeScore := score_or_0 (ApiMatch.fullTime_home match_) in
    let awayScore := score_or_0 (ApiMatch.fullTime_away match_) in
    let goals :=
      (dummyGoals "home" homeScore random used
       ++ dummyGoals "away" awayScore random (used + Z.to_nat homeScore))%list in
    (Array_sort byMinute goals,
     (used + Z.to_nat homeScore + Z.to_nat awayScore)%nat)
  end.

(** The callback of the [map] of [formatMatches]. *)
Definition formatMatch (random : nat -> Z) (used : nat) (match_ : ApiMatch.t)
    : MatchData * nat :=
  let (goals, used) := extractGoals random used match_ in
  ({| id := ApiMatch.id match_;
      homeTeam := ApiTeam.name (ApiMatch.homeTeam match_);
      awayTeam := ApiTeam.name (ApiMatch.awayTeam match_);
      homeScore := score_or_0 (ApiMatch.fullTime_home match_);
      awayScore := score_or_0 (ApiMatch.fullTime_away match_);
      date := ApiMatch.utcDate match_;
      status := ApiMatch.status match_;
      competition := ApiMatch.competition_name match_;
      goals := GoalsArray goals |},
   used).

(** The [map] of [formatMatches], left to right. *)
Fixpoint formatEach (random : nat -> Z) (used : nat) (l : list ApiMatch.t)
    : list MatchData :=
  match l with
  | [] => []
  | match_ :: rest =>
    let (formatted, used) := formatMatch random used match_ in
    formatted :: formatEach random used rest
  end.

Definition formatMatches (random : nat -> Z) (matches : list ApiMatch.t)
    : list MatchData :=
  let finishedMatches :=
    filter (fun match_ => (ApiMatch.status match_ =? "FINISHED")%string) matches in
  formatEach random 0 finishedMatches.

End FootballAPIService.

(** ** server.js and the page script *)

Module Server.

(** An entry of the array the route [/api/rating-categories] sends. *)
Record Category : Type := {
  name : string;
  min : Z;
  max : Z;
  color : string
}.

Definition ratingCategories : list Category :=
  [ {| name := "Excellent"; min := 90; max := 100; color := "#22c55e" |};
    {| name := "Very Good"; min := 75; max := 89; color := "#84cc16" |};
    {| name := "Good"; min := 60; max := 74; color := "#eab308" |};
    {| name := "Average"; min := 40; max := 59; color := "#f97316" |};
    {| name := "Poor"; min := 20; max := 39; color := "#ef4444" |};
    {| name := "Very Poor"; min := 0; max := 19; color := "#dc2626" |} ].

(** [getRatingColor] of the page script, on the categories the page
    has loaded. *)
Definition getRatingColor (ratingCategories : list Category) (score : Z) : string :=
  let category :=
    find (fun cat => (score >=? min cat) && (score <=? max cat)) ratingCategories in
  match category with
  | Some category => color category
  | None => "#64748b"
  end.

(** [parseInt(req.query.limit) || 10], [parseInt] giving a number or
    [NaN] ([None]). *)
Definition limit_or_10 (parsed : option Z) : Z :=
  match parsed with
  | Some 0 | None => 10
  | Some n => n
  end.

(** The route [/api/matches/top-rated]. *)
Definition topRated (parsed : option Z) (db : FootballDatabase.t)
    : list PresentedMatch.t :=
  let limit := limit_or_10 parsed in
  FootballDatabase.getTopRatedMatches limit db.

(** The loop of the route [/api/matches/fetch] over the fetched
    matches: a finished match is rated and saved, the [k]-th iteration
    of the loop reading [world k].  An exception of [calculateRating] or
    [saveMatch] leaves the loop. *)
Fixpoint rateAndSave (world : nat -> World) (k : nat) (matches : list MatchData)
    (db : FootballDatabase.t)
    : outcome (list (MatchData * RatingResult)) * FootballDatabase.t :=
  match matches with
  | [] => (Return [], db)
  | match_ :: rest =>
    if negb (status match_ =? "FINISHED")%string then
      rateAndSave world (S k) rest db
    else
      match FootballRatingEngine.calculateRating match_ with
      | Throw e => (Throw e, db)
      | Return rating =>
        match FootballDatabase.saveMatch match_ rating (world k) db with
        | (Throw e, db) => (Throw e, db)
        | (Return _, db) =>
          match rateAndSave world (S k) rest db with
          | (Return ratedMatches, db) => (Return ((match_, rating) :: ratedMatches), db)
          | (Throw e, db) => (Throw e, db)
          end
        end
      end
  end.

End Server.

(** ** The bonuses of one goal of the distribution walk

    [bonusesAt w goal] records which of the three [if] statements of the
    branch taken by [distributionStep w goal] fire, each condition being
    read on the incremented tally as in the source.  Lemma
    [distributionStep_bonuses] below ties it to the step. *)

Module Bonus.
Import FootballRatingEngine.

Record t : Type := {
  comeback : bool;
  equalizer : bool;
  lateWinner : bool
}.

Definition none : t :=
  {| comeback := false; equalizer := false; lateWinner := false |}.

Definition bonusesAt (w : Walk) (goal : GoalEvent) : t :=
  if (team goal =? "home")%string then
    let homeGoals := homeGoals w + 1 in
    let awayGoals := awayGoals w in
    {| comeback := (homeGoals >? awayGoals) && (awayGoals >? 0);
       equalizer := (homeGoals =? awayGoals) && (awayGoals >? 0);
       lateWinner := minute_ge_80 goal && (homeGoals >? awayGoals) |}
  else if (team goal =? "away")%string then
    let homeGoals := homeGoals w in
    let awayGoals := awayGoals w + 1 in
    {| comeback := (awayGoals >? homeGoals) && (homeGoals >? 0);
       equalizer := (awayGoals =? homeGoals) && (homeGoals >? 0);
       lateWinner := minute_ge_80 goal && (awayGoals >? homeGoals) |}
  else none.

Definition points (b : t) : Z :=
  (if comeback b then 4 else 0)
  + (if equalizer b then 3 else 0)
  + (if lateWinner b then 2 else 0).

End Bonus.

(** ** The specification's own formulations *)

Module Spec.
Import FootballRatingEngine.

(** "clamp the total to the inclusive range [lo,hi]" *)
Definition clamp (lo hi x : Z) : Z := Z.max lo (Z.min x hi).

(** Section 4.2: the additive minute bands of one goal. *)
Definition bandPoints (minute : Z) : Z :=
  (if minute <=? 15 then 3 else 0)
  + (if minute >=? 75 then 3 else 0)
  + (if minute >=? 80 then 2 else 0)
  + (if minute >=? 90 then 5 else 0).

Definition sumZ (l : list Z) : Z := fold_right Z.add 0 l.

(** Section 4.2: sum over all goals, then clamp to [0,25]. *)
Definition goalTimingScore (goals : list GoalEvent) : Z :=
  clamp 0 25 (sumZ (map (fun goal => bandPoints (minute_or_0 goal)) goals)).

(** Sections 3 and 9: "sort goals by minute (stable, ties broken by
    original order)": insertion of a goal in front of the first goal
    that is not earlier, folded from the right. *)
Fixpoint insertByMinute (goal : GoalEvent) (l : list GoalEvent)
    : list GoalEvent :=
  match l with
  | [] => [goal]
  | h :: t =>
    if minute_or_0 goal <=? minute_or_0 h then goal :: h :: t
    else h :: insertByMinute goal t
  end.

Definition sortByMinute (goals : list GoalEvent) : list GoalEvent :=
  fold_right insertByMinute [] goals.

(** A list in non-decreasing minute order. *)
Definition notLater (a b : GoalEvent) : Prop := minute_or_0 a <= minute_or_0 b.

Definition minuteOrdered (goals : list GoalEvent) : Prop :=
  Sorted notLater goals.

(** Two goal events that differ at most in [scorer] and [type]. *)
Definition sameTeamAndMinute (a b : GoalEvent) : Prop :=
  team a = team b /\ minute a = minute b.

(** A goal event with its absent [minute] written out as 0. *)
Definition withMinuteDefault (goal : GoalEvent) : GoalEvent :=
  {| team := team goal;
     minute := Some (minute_or_0 goal);
     scorer := scorer goal;
     type := type goal |}.

(** A match object with its [goals] property replaced. *)
Definition withGoals (matchData : MatchData) (g : GoalsField) : MatchData :=
  {| id := id matchData;
     homeTeam := homeTeam matchData;
     awayTeam := awayTeam matchData;
     homeScore := homeScore matchData;
     awayScore := awayScore matchData;
     date := date matchData;
     status := status matchData;
     competition := competition matchData;
     goals := g |}.

(** Section 6: a well-formed input has a goal sequence or none. *)
Definition wellFormed (matchData : MatchData) : Prop :=
  goals matchData <> GoalsNull.

End Spec.

(** ** Vocabulary of the further properties *)

Module Sides.

(** The goal event seen from the other side: a home goal becomes an
    away goal and conversely; any other tag stays. *)
Definition swapGoal (goal : GoalEvent) : GoalEvent :=
  {| team :=
       if (team goal =? "home")%string then "away"
       else if (team goal =? "away")%string then "home"
       else team goal;
     minute := minute goal;
     scorer := scorer goal;
     type := type goal |}.

Definition swapGoals (g : GoalsField) : GoalsField :=
  match g with
  | GoalsArray l => GoalsArray (map swapGoal l)
  | GoalsAbsent => GoalsAbsent
  | GoalsNull => GoalsNull
  end.

(** The match with home and away exchanged. *)
Definition swapSides (matchData : MatchData) : MatchData :=
  {| id := id matchData;
     homeTeam := awayTeam matchData;
     awayTeam := homeTeam matchData;
     homeScore := awayScore matchData;
     awayScore := homeScore matchData;
     date := date matchData;
     status := status matchData;
     competition := competition matchData;
     goals := swapGoals (goals matchData) |}.

End Sides.

(** The competition names [getMatchesByCompetition] shows for a
    requested name: the two special names select by containment, every
    other name by equality. *)
Definition shownFor (requested name : string) : bool :=
  if (requested =? "Champions League")%string then
    String_includes "Champions League" name
  else if (requested =? "Premier League")%string then
    String_includes "Premier League" name
  else (name =? requested)%string.

(** Later dates first. *)
Definition laterFirst (Date_getTime : string -> Z) (a b : PresentedMatch.t) : Prop :=
  Date_getTime (PresentedMatch.date b) <= Date_getTime (PresentedMatch.date a).

(** Higher scores first. *)
Definition higherFirst (a b : MatchRow.t) : Prop :=
  MatchRow.watchability_score b <= MatchRow.watchability_score a.

(** A reading of dates for the sample inputs: the day of the month of a
    date of September 2025. *)
Definition sampleDate (s : string) : Z :=
  match s with
  | "2025-09-13T11:30:00Z" => 13
  | "2025-09-13T14:00:00Z" => 13
  | "2025-09-16T19:00:00Z" => 16
  | _ => 0
  end%string.

(** The row belongs to a finished match of the batch and carries the
    rating the engine gives that match. *)
Definition ratedFrom (matches : list MatchData) (row : MatchRow.t) : Prop :=
  exists m r,
    In m matches
    /\ status m = "FINISHED"
    /\ FootballRatingEngine.calculateRating m = Return r
    /\ MatchRow.api_id row = id m
    /\ MatchRow.watchability_score row = totalScore r
    /\ MatchRow.rating_category row = rating r
    /\ 0 <= MatchRow.watchability_score row <= 100.

(** The goal event has a minute. *)
Definition hasMinute (goal : GoalEvent) : Prop := minute goal <> None.

(** The goal event has a minute between [lo] and [hi]. *)
Definition minuteWithin (lo hi : Z) (goal : GoalEvent) : Prop :=
  exists m, minute goal = Some m /\ lo <= m <= hi.

(** The number of goals of a list that pass a test. *)
Definition countGoals (test : GoalEvent -> bool) (goals : list GoalEvent) : Z :=
  Z.of_nat (List.length (filter test goals)).

(** The goal carries one of the two tags the engine knows. *)
Definition recognized (goal : GoalEvent) : bool :=
  (team goal =? "home")%string || (team goal =? "away")%string.

(** ** Sample inputs *)

(** A 1-1 draw whose two goals are listed out of minute order. *)
Definition drawWithTwoGoals : MatchData :=
  {| id := 1; homeTeam := "A"; awayTeam := "B"; homeScore := 1; awayScore := 1;
     date := "2025-09-13T11:30:00Z"; status := "FINISHED";
     competition := "Premier League";
     goals :=
       GoalsArray
         [ {| team := "home"; minute := Some 80; scorer := None; type := None |};
           {| team := "away"; minute := Some 10; scorer := None; type := None |} ] |}.

(** A match object that breaks the contract: a negative home score. *)
Definition negativeScoreMatch : MatchData :=
  {| id := 4; homeTeam := "A"; awayTeam := "B"; homeScore := -1; awayScore := 0;
     date := "2025-09-13T11:30:00Z"; status := "FINISHED";
     competition := "Premier League";
     goals := GoalsArray [] |}.

(** The rating the engine gives to [drawWithTwoGoals]. *)
Definition drawWithTwoGoalsRating : RatingResult :=
  {| totalScore := 43;
     breakdown := {| goalVolume := 15; goalTiming := 8; goalDistribution := 20 |};
     rating := "Good";
     match_ :=
       {| summaryHomeTeam := "A"; summaryAwayTeam := "B";
          score := "1-1"; totalGoals := 2 |} |}.

Definition sampleWorld : World :=
  {| nowMatch := "2025-09-19T01:38:50.774Z";
     nowRating := "2025-09-19T01:38:50.774Z";
     writeFileSync_ok := true |}.

(** The store of the deployed demo: the three sample matches. *)
Definition sampleStore : FootballDatabase.t :=
  FootballDatabase.loadInitialData (FootballDatabase.constructor true).

(** A finished match as the API delivers it without goal details, and
    an unfinished one. *)
Definition apiMatchWithoutGoals : ApiMatch.t :=
  {| ApiMatch.id := 537817;
     ApiMatch.homeTeam := {| ApiTeam.id := 57; ApiTeam.name := "Arsenal FC" |};
     ApiMatch.awayTeam :=
       {| ApiTeam.id := 351; ApiTeam.name := "Nottingham Forest FC" |};
     ApiMatch.fullTime_home := Some 3;
     ApiMatch.fullTime_away := Some 0;
     ApiMatch.utcDate := "2025-09-13T11:30:00Z";
     ApiMatch.status := "FINISHED";
     ApiMatch.competition_name := "Premier League";
     ApiMatch.goals := None |}.

Definition apiMatchInPlay : ApiMatch.t :=
  {| ApiMatch.id := 537818;
     ApiMatch.homeTeam := {| ApiTeam.id := 57; ApiTeam.name := "Arsenal FC" |};
     ApiMatch.awayTeam :=
       {| ApiTeam.id := 351; ApiTeam.name := "Nottingham Forest FC" |};
     ApiMatch.fullTime_home := None;
     ApiMatch.fullTime_away := None;
     ApiMatch.utcDate := "2025-09-13T14:00:00Z";
     ApiMatch.status := "IN_PLAY";
     ApiMatch.competition_name := "Premier League";
     ApiMatch.goals := None |}.

(** Results of [Math.floor(Math.random() * 90)]: 12, 65, 79, 12, ... *)
Definition sampleRandom (k : nat) : Z :=
  match Nat.modulo k 3 with
  | O => 12
  | S O => 65
  | _ => 79
  end.

(** Ten recorded calls, one per second from second 1 on. *)
Definition fullHistory : list Z :=
  [1000; 2000; 3000; 4000; 5000; 6000; 7000; 8000; 9000; 10000].

(** A call during which the disk cannot be written. *)
Definition failingWorld : World :=
  {| nowMatch := "2025-09-19T01:38:50.774Z";
     nowRating := "2025-09-19T01:38:50.774Z";
     writeFileSync_ok := false |}.

(** The store after [drawWithTwoGoals] has been saved into a fresh one. *)
Definition savedOnce : FootballDatabase.t :=
  snd (FootballDatabase.saveMatch drawWithTwoGoals drawWithTwoGoalsRating
         sampleWorld (FootballDatabase.constructor false)).

(** The store a local restart builds when the matches file written for
    [savedOnce] is there and the ratings file is not. *)
Definition loadedWithoutRatings : FootballDatabase.t :=
  FootballDatabase.loadData (FootballDatabase.matchesFileOf savedOnce) FileMissing
    (FootballDatabase.constructor false).

(** Two goal events that agree on the three expressions the engine
    evaluates on a goal: [goal.team], [goal.minute || 0] and
    [goal.minute >= 80]. *)
Definition sameReadings (a b : GoalEvent) : Prop :=
  team a = team b
  /\ FootballRatingEngine.minute_or_0 a = FootballRatingEngine.minute_or_0 b
  /\ FootballRatingEngine.minute_ge_80 a = FootballRatingEngine.minute_ge_80 b.

(** * Properties *)

Import FootballRatingEngine.

(** ** The embedding on sample inputs *)

Example Number_toString_samples :
  Number_toString 0 = "0" /\ Number_toString 12 = "12"
  /\ Number_toString (-3) = "-3".
Proof. repeat split. Qed.

Example drawWithTwoGoals_rating :
  calculateRating drawWithTwoGoals = Return drawWithTwoGoalsRating.
Proof. reflexivity. Qed.

(** The README's 4-3 example with the goal minutes of scenario A, and
    the goalless draw of scenario B. *)
Example scenario_A :
  exists r,
    calculateRating
      {| id := 2; homeTeam := "Liverpool"; awayTeam := "Manchester City";
         homeScore := 4; awayScore := 3;
         date := "2025-09-13T11:30:00Z"; status := "FINISHED";
         competition := "Premier League";
         goals :=
           GoalsArray
             [ FootballDatabase.sampleGoal "home" 12;
               FootballDatabase.sampleGoal "away" 28;
               FootballDatabase.sampleGoal "home" 35;
               FootballDatabase.sampleGoal "away" 50;
               FootballDatabase.sampleGoal "home" 67;
               FootballDatabase.sampleGoal "away" 74;
               FootballDatabase.sampleGoal "home" 89 ] |}
    = Return r
    /\ breakdown r = {| goalVolume := 50; goalTiming := 8; goalDistribution := 25 |}
    /\ totalScore r = 83
    /\ rating r = "AMAZING".
Proof. eexists. repeat split. Qed.

Example scenario_B :
  exists r,
    calculateRating
      {| id := 3; homeTeam := "A"; awayTeam := "B";
         homeScore := 0; awayScore := 0;
         date := "2025-09-13T11:30:00Z"; status := "FINISHED";
         competition := "Premier League";
         goals := GoalsArray [] |}
    = Return r
    /\ breakdown r = {| goalVolume := 0; goalTiming := 0; goalDistribution := 0 |}
    /\ totalScore r = 0
    /\ rating r = "Very Poor".
Proof. eexists. repeat split. Qed.

(** ** Goal volume *)

Lemma calculateGoalVolumeScore_cases (t : Z) :
  (t = 0 /\ calculateGoalVolumeScore t = 0)
  \/ (t = 1 /\ calculateGoalVolumeScore t = 5)
  \/ (t = 2 /\ calculateGoalVolumeScore t = 15)
  \/ (t = 3 /\ calculateGoalVolumeScore t = 25)
  \/ (t = 4 /\ calculateGoalVolumeScore t = 35)
  \/ (t = 5 /\ calculateGoalVolumeScore t = 45)
  \/ ((t < 0 \/ 6 <= t) /\ calculateGoalVolumeScore t = 50).
Proof.
  unfold calculateGoalVolumeScore.
  repeat match goal with
         | |- context [ ?a =? ?b ] => destruct (Z.eqb_spec a b)
         end; lia.
Qed.

(** C2. On the non-negative integers [calculateGoalVolumeScore] is the
    table 0,5,15,25,35,45 for 0..5 and 50 from 6 on; its values lie in
    {0,5,15,25,35,45,50}; and it is monotonically non-decreasing. *)
Theorem volume_table_and_monotone (t : Z) (Ht : 0 <= t) :
  (t = 0 -> calculateGoalVolumeScore t = 0)
  /\ (t = 1 -> calculateGoalVolumeScore t = 5)
  /\ (t = 2 -> calculateGoalVolumeScore t = 15)
  /\ (t = 3 -> calculateGoalVolumeScore t = 25)
  /\ (t = 4 -> calculateGoalVolumeScore t = 35)
  /\ (t = 5 -> calculateGoalVolumeScore t = 45)
  /\ (6 <= t -> calculateGoalVolumeScore t = 50)
  /\ In (calculateGoalVolumeScore t) [0; 5; 15; 25; 35; 45; 50]
  /\ (forall u, t <= u -> calculateGoalVolumeScore t <= calculateGoalVolumeScore u).
Proof.
  pose proof (calculateGoalVolumeScore_cases t) as Hc.
  repeat split; try (intros; lia).
  - simpl. lia.
  - intros u Hu. pose proof (calculateGoalVolumeScore_cases u). lia.
Qed.

Lemma volume_table_and_monotone_witness :
  calculateGoalVolumeScore 3 = 25
  /\ calculateGoalVolumeScore 3 <= calculateGoalVolumeScore 7.
Proof.
  destruct (volume_table_and_monotone 3 ltac:(lia))
    as (_ & _ & _ & H3 & _ & _ & _ & _ & Hmono).
  split; [apply H3; reflexivity | apply Hmono; lia].
Defined.


(** ** Goal timing *)

Lemma bandPoints_bounds (m : Z) : 0 <= Spec.bandPoints m <= 10.
Proof.
  unfold Spec.bandPoints.
  repeat match goal with
         | |- context [ ?a <=? ?b ] => destruct (Z.leb_spec a b)
         | |- context [ ?a >=? ?b ] => rewrite (Z.geb_leb a b)
         end; lia.
Qed.

Lemma timingStep_bandPoints (score : Z) (goal : GoalEvent) :
  timingStep score goal = score + Spec.bandPoints (minute_or_0 goal).
Proof.
  unfold timingStep, Spec.bandPoints.
  repeat match goal with
         | |- context [ if ?c then _ else _ ] => destruct c
         end; lia.
Qed.

Lemma fold_timingStep (goals : list GoalEvent) :
  forall score,
    fold_left timingStep goals score
    = score + Spec.sumZ (map (fun goal => Spec.bandPoints (minute_or_0 goal)) goals).
Proof.
  induction goals as [| goal goals IH]; intros score; simpl.
  - lia.
  - rewrite IH, timingStep_bandPoints. lia.
Qed.

Lemma sum_bandPoints_nonneg (goals : list GoalEvent) :
  0 <= Spec.sumZ (map (fun goal => Spec.bandPoints (minute_or_0 goal)) goals).
Proof.
  induction goals as [| goal goals IH]; simpl; [lia |].
  pose proof (bandPoints_bounds (minute_or_0 goal)). lia.
Qed.

Lemma calculateGoalTimingScore_bounds (goals : list GoalEvent) :
  0 <= calculateGoalTimingScore goals <= 25.
Proof.
  unfold calculateGoalTimingScore, maxGoalTimingScore.
  rewrite fold_timingStep.
  pose proof (sum_bandPoints_nonneg goals). lia.
Qed.


(** ** Goal distribution *)

Lemma distributionStep_bonuses (w : Walk) (goal : GoalEvent) :
  walkScore (distributionStep w goal)
  = walkScore w + Bonus.points (Bonus.bonusesAt w goal).
Proof.
  unfold distributionStep, Bonus.bonusesAt, Bonus.points.
  destruct (team goal =? "home")%string;
    [| destruct (team goal =? "away")%string ]; simpl;
    repeat match goal with
           | |- context [ if ?c then _ else _ ] => destruct c
           end; lia.
Qed.

Lemma bonus_points_nonneg (b : Bonus.t) : 0 <= Bonus.points b.
Proof.
  unfold Bonus.points.
  destruct (Bonus.comeback b), (Bonus.equalizer b), (Bonus.lateWinner b); lia.
Qed.

Lemma fold_distributionStep_nonneg (goals : list GoalEvent) :
  forall w, 0 <= walkScore w ->
            0 <= walkScore (fold_left distributionStep goals w).
Proof.
  induction goals as [| goal goals IH]; intros w Hw; simpl; [exact Hw |].
  apply IH. rewrite distributionStep_bonuses.
  pose proof (bonus_points_nonneg (Bonus.bonusesAt w goal)). lia.
Qed.

Lemma walkStart_nonneg (matchData : MatchData) :
  0 <= walkScore (walkStart matchData).
Proof.
  unfold walkStart; simpl.
  destruct ((homeScore matchData >? 0) && (awayScore matchData >? 0)); lia.
Qed.

Lemma calculateGoalDistributionScore_bounds matchData goals :
  0 <= calculateGoalDistributionScore matchData goals <= 25.
Proof.
  unfold calculateGoalDistributionScore, maxGoalDistributionScore.
  pose proof (fold_distributionStep_nonneg goals _ (walkStart_nonneg matchData)).
  lia.
Qed.

Lemma calculateGoalVolumeScore_bounds (t : Z) :
  0 <= calculateGoalVolumeScore t <= 50.
Proof. pose proof (calculateGoalVolumeScore_cases t). lia. Qed.


(** ** The aggregate rating *)

(** C1. On every match object whose [goals] is a list (or absent),
    [calculateRating] returns a rating whose [totalScore] is exactly the
    sum of the three entries of its [breakdown], with
    0 <= goalVolume <= 50, 0 <= goalTiming <= 25,
    0 <= goalDistribution <= 25 and hence 0 <= totalScore <= 100.  (The
    scores need not even be non-negative for this.) *)
Theorem rating_total_is_sum_and_bounded (matchData : MatchData)
    (Hwf : Spec.wellFormed matchData) :
  exists r,
    calculateRating matchData = Return r
    /\ totalScore r
       = goalVolume (breakdown r) + goalTiming (breakdown r)
         + goalDistribution (breakdown r)
    /\ 0 <= goalVolume (breakdown r) <= 50
    /\ 0 <= goalTiming (breakdown r) <= 25
    /\ 0 <= goalDistribution (breakdown r) <= 25
    /\ 0 <= totalScore r <= 100.
Proof.
  unfold Spec.wellFormed in Hwf. unfold calculateRating.
  destruct (goals matchData) as [| | l]; [| congruence |];
    (eexists; split; [reflexivity |]); cbn [totalScore breakdown goalVolume
      goalTiming goalDistribution]; unfold Math_round.
  all: match goal with
       | |- context [ calculateGoalDistributionScore ?m ?g ] =>
         pose proof (calculateGoalDistributionScore_bounds m g);
         pose proof (calculateGoalTimingScore_bounds g)
       end.
  all: pose proof
         (calculateGoalVolumeScore_bounds (homeScore matchData + awayScore matchData)).
  all: lia.
Qed.

Lemma rating_total_is_sum_and_bounded_witness :
  exists r,
    calculateRating drawWithTwoGoals = Return r
    /\ totalScore r
       = goalVolume (breakdown r) + goalTiming (breakdown r)
         + goalDistribution (breakdown r)
    /\ 0 <= goalVolume (breakdown r) <= 50
    /\ 0 <= goalTiming (breakdown r) <= 25
    /\ 0 <= goalDistribution (breakdown r) <= 25
    /\ 0 <= totalScore r <= 100.
Proof.
  apply (rating_total_is_sum_and_bounded drawWithTwoGoals).
  unfold Spec.wellFormed; simpl; discriminate.
Defined.

(** C4. [getRatingCategory] maps every integer of [0,100] to exactly one
    of six labels, and the set of scores of each label is an interval:
    90..100, 75..89, 60..74, 30..59, 15..29 and 0..14.  The six
    intervals are pairwise disjoint and cover [0,100]. *)
Theorem category_partition (s : Z) (Hs : 0 <= s <= 100) :
  (getRatingCategory s = "ALL TIME LEGENDARY" <-> 90 <= s <= 100)
  /\ (getRatingCategory s = "AMAZING" <-> 75 <= s <= 89)
  /\ (getRatingCategory s = "REALLY Good" <-> 60 <= s <= 74)
  /\ (getRatingCategory s = "Good" <-> 30 <= s <= 59)
  /\ (getRatingCategory s = "Average" <-> 15 <= s <= 29)
  /\ (getRatingCategory s = "Very Poor" <-> 0 <= s <= 14).
Proof.
  unfold getRatingCategory.
  repeat match goal with
         | |- context [ ?a >=? ?b ] => rewrite (Z.geb_leb a b)
         end.
  repeat match goal with
         | |- context [ ?a <=? ?b ] => destruct (Z.leb_spec a b)
         end;
    repeat split; intros; try lia; try discriminate; reflexivity.
Qed.

Lemma category_partition_witness :
  getRatingCategory 17 = "Average" <-> 15 <= 17 <= 29.
Proof.
  destruct (category_partition 17 ltac:(lia)) as (_ & _ & _ & _ & H & _).
  exact H.
Defined.

(** C7. Scenario C: a 1-0 match whose only goal is a home goal at
    minute 90 is rated volume 5, timing 10, distribution 2, total 17,
    "Average". *)
Theorem scenario_C (i : Z) (home away d st c : string) (s ty : option string) :
  exists r,
    calculateRating
      {| id := i; homeTeam := home; awayTeam := away;
         homeScore := 1; awayScore := 0;
         date := d; status := st; competition := c;
         goals :=
           GoalsArray
             [ {| team := "home"; minute := Some 90; scorer := s; type := ty |} ] |}
    = Return r
    /\ goalVolume (breakdown r) = 5
    /\ goalTiming (breakdown r) = 10
    /\ goalDistribution (breakdown r) = 2
    /\ totalScore r = 17
    /\ rating r = "Average".
Proof.
  eexists. split; [reflexivity |]. repeat split.
Qed.

(** ** What the rating reads of a goal event *)

Lemma sameReadings_refl (a : GoalEvent) : sameReadings a a.
Proof. repeat split. Qed.

Lemma sameTeamAndMinute_readings (a b : GoalEvent) :
  Spec.sameTeamAndMinute a b -> sameReadings a b.
Proof.
  intros [Ht Hm]. unfold sameReadings, minute_or_0, minute_ge_80.
  rewrite Ht, Hm. repeat split.
Qed.

Lemma absent_minute_readings t s ty :
  sameReadings {| team := t; minute := None; scorer := s; type := ty |}
               {| team := t; minute := Some 0; scorer := s; type := ty |}.
Proof. repeat split. Qed.

Lemma timingStep_readings score a b :
  sameReadings a b -> timingStep score a = timingStep score b.
Proof. intros (_ & Hm & _). unfold timingStep. rewrite Hm. reflexivity. Qed.

Lemma distributionStep_readings w a b :
  sameReadings a b -> distributionStep w a = distributionStep w b.
Proof.
  intros (Ht & _ & H80). unfold distributionStep. rewrite Ht, H80. reflexivity.
Qed.

Lemma fold_left_readings {S : Type} (step : S -> GoalEvent -> S) l l' :
  (forall s a b, sameReadings a b -> step s a = step s b) ->
  Forall2 sameReadings l l' ->
  forall s, fold_left step l s = fold_left step l' s.
Proof.
  intros Hstep H. induction H as [| a b l l' Hab _ IH]; intros s; simpl.
  - reflexivity.
  - rewrite (Hstep s a b Hab). apply IH.
Qed.

Lemma calculateRating_readings matchData l l' :
  Forall2 sameReadings l l' ->
  calculateRating (Spec.withGoals matchData (GoalsArray l))
  = calculateRating (Spec.withGoals matchData (GoalsArray l')).
Proof.
  intros H. unfold calculateRating; cbn [goals Spec.withGoals].
  unfold calculateGoalTimingScore, calculateGoalDistributionScore.
  rewrite (fold_left_readings timingStep l l' timingStep_readings H).
  rewrite (fold_left_readings distributionStep l l' distributionStep_readings H).
  reflexivity.
Qed.

Lemma Forall2_sameReadings_refl l : Forall2 sameReadings l l.
Proof. induction l; constructor; auto using sameReadings_refl. Qed.

(** C8. [calculateRating] returns on every well-formed match object; an
    absent [goals] gives the rating of the empty list; a goal without
    [minute] is rated as the same goal at minute 0; and two goal lists
    that agree on [team] and [minute] position by position (differing
    only in [scorer] and [type]) give the same rating. *)
Theorem rating_total_and_defaults :
  (forall matchData,
      Spec.wellFormed matchData -> exists r, calculateRating matchData = Return r)
  /\ (forall matchData,
        calculateRating (Spec.withGoals matchData GoalsAbsent)
        = calculateRating (Spec.withGoals matchData (GoalsArray [])))
  /\ (forall matchData before after t s ty,
        calculateRating
          (Spec.withGoals matchData
             (GoalsArray
                (before
                 ++ {| team := t; minute := None; scorer := s; type := ty |}
                 :: after)))
        = calculateRating
          (Spec.withGoals matchData
             (GoalsArray
                (before
                 ++ {| team := t; minute := Some 0; scorer := s; type := ty |}
                 :: after))))
  /\ (forall matchData l l',
        Forall2 Spec.sameTeamAndMinute l l' ->
        calculateRating (Spec.withGoals matchData (GoalsArray l))
        = calculateRating (Spec.withGoals matchData (GoalsArray l'))).
Proof.
  split; [| split; [| split]].
  - intros matchData Hwf. unfold Spec.wellFormed in Hwf. unfold calculateRating.
    destruct (goals matchData); [eexists; reflexivity | congruence
                                | eexists; reflexivity].
  - intros matchData. reflexivity.
  - intros matchData before after t s ty. apply calculateRating_readings.
    apply Forall2_app; [apply Forall2_sameReadings_refl |].
    constructor; [apply absent_minute_readings | apply Forall2_sameReadings_refl].
  - intros matchData l l' H. apply calculateRating_readings.
    induction H; constructor; auto using sameTeamAndMinute_readings.
Qed.

Lemma rating_total_and_defaults_witness :
  (exists r, calculateRating drawWithTwoGoals = Return r)
  /\ calculateRating
       (Spec.withGoals drawWithTwoGoals
          (GoalsArray
             [ {| team := "home"; minute := Some 80;
                  scorer := Some "X"; type := Some "PENALTY" |} ]))
     = calculateRating
       (Spec.withGoals drawWithTwoGoals
          (GoalsArray
             [ {| team := "home"; minute := Some 80;
                  scorer := None; type := None |} ])).
Proof.
  destruct rating_total_and_defaults as (Htotal & _ & _ & Hinfo).
  split.
  - apply Htotal. unfold Spec.wellFormed; simpl; discriminate.
  - apply Hinfo. constructor; [| constructor].
    unfold Spec.sameTeamAndMinute; simpl; split; reflexivity.
Defined.

(** ** The bonuses of the walk *)

Lemma comeback_equalizer_exclusive (w : Walk) (goal : GoalEvent) :
  Bonus.comeback (Bonus.bonusesAt w goal)
  && Bonus.equalizer (Bonus.bonusesAt w goal) = false.
Proof.
  unfold Bonus.bonusesAt.
  destruct (team goal =? "home")%string;
    [| destruct (team goal =? "away")%string ]; cbn [Bonus.comeback
      Bonus.equalizer Bonus.none]; try reflexivity.
  - rewrite (Z.gtb_ltb (homeGoals w + 1)).
    destruct (Z.ltb_spec (awayGoals w) (homeGoals w + 1)),
      (Z.eqb_spec (homeGoals w + 1) (awayGoals w));
      try lia; destruct (awayGoals w >? 0); reflexivity.
  - rewrite (Z.gtb_ltb (awayGoals w + 1)).
    destruct (Z.ltb_spec (homeGoals w) (awayGoals w + 1)),
      (Z.eqb_spec (awayGoals w + 1) (homeGoals w));
      try lia; destruct (homeGoals w >? 0); reflexivity.
Qed.

(** C6. At every goal of every walk the score grows by the points of
    the bonuses that fire, and the comeback bonus (+4) and the equalizer
    bonus (+3) never fire together; the late-winner bonus (+2) can fire
    with the comeback bonus: in the walk away 10', home 20', home 85'
    the third goal earns 4 + 2. *)
Theorem comeback_xor_equalizer_and_late_winner_stacks :
  (forall matchData before goal,
      let w := fold_left distributionStep before (walkStart matchData) in
      let b := Bonus.bonusesAt w goal in
      walkScore (distributionStep w goal) = walkScore w + Bonus.points b
      /\ Bonus.comeback b && Bonus.equalizer b = false)
  /\ (exists matchData before goal,
        let w := fold_left distributionStep before (walkStart matchData) in
        let b := Bonus.bonusesAt w goal in
        Bonus.comeback b = true
        /\ Bonus.lateWinner b = true
        /\ walkScore (distributionStep w goal) = walkScore w + 4 + 2).
Proof.
  split.
  - intros matchData before goal w b. split.
    + apply distributionStep_bonuses.
    + apply comeback_equalizer_exclusive.
  - exists drawWithTwoGoals.
    exists [ {| team := "away"; minute := Some 10; scorer := None; type := None |};
             {| team := "home"; minute := Some 20; scorer := None; type := None |} ].
    exists {| team := "home"; minute := Some 85; scorer := None; type := None |}.
    repeat split.
Qed.

(** ** Goal order *)

Lemma insertByMinute_head goal l :
  HdRel Spec.notLater goal l -> Spec.insertByMinute goal l = goal :: l.
Proof.
  intros H. destruct H as [| h t Hle]; simpl; [reflexivity |].
  unfold Spec.notLater in Hle.
  destruct (Z.leb_spec (minute_or_0 goal) (minute_or_0 h)); [reflexivity | lia].
Qed.

Lemma sortByMinute_ordered goals :
  Spec.minuteOrdered goals -> Spec.sortByMinute goals = goals.
Proof.
  unfold Spec.minuteOrdered.
  induction 1 as [| goal l Hl IH Hhd]; simpl; [reflexivity |].
  rewrite IH. apply insertByMinute_head, Hhd.
Qed.

(** [sortByMinute] is a sort: its result is a permutation of its
    argument in non-decreasing minute order, and goals of the same
    minute keep their relative order. *)
Lemma insertByMinute_perm goal l :
  Permutation (goal :: l) (Spec.insertByMinute goal l).
Proof.
  induction l as [| h t IH]; simpl; [reflexivity |].
  destruct (minute_or_0 goal <=? minute_or_0 h); [reflexivity |].
  rewrite perm_swap. constructor. exact IH.
Qed.

Lemma sortByMinute_perm goals : Permutation goals (Spec.sortByMinute goals).
Proof.
  induction goals as [| goal l IH]; simpl; [constructor |].
  rewrite <- insertByMinute_perm. constructor. exact IH.
Qed.

Lemma insertByMinute_sorted goal l :
  Sorted Spec.notLater l -> Sorted Spec.notLater (Spec.insertByMinute goal l).
Proof.
  induction 1 as [| h t Ht IH Hhd]; simpl.
  - repeat constructor.
  - destruct (Z.leb_spec (minute_or_0 goal) (minute_or_0 h)).
    + constructor; [constructor; assumption |]. constructor. assumption.
    + constructor; [exact IH |].
      destruct Hhd as [| h' t' Hle]; simpl.
      * constructor. unfold Spec.notLater. lia.
      * destruct (minute_or_0 goal <=? minute_or_0 h');
          constructor; unfold Spec.notLater in *; lia.
Qed.

Lemma sortByMinute_sorted goals : Spec.minuteOrdered (Spec.sortByMinute goals).
Proof.
  unfold Spec.minuteOrdered.
  induction goals as [| goal l IH]; simpl; [constructor |].
  apply insertByMinute_sorted, IH.
Qed.

Lemma insertByMinute_stable m goal l :
  filter (fun g => minute_or_0 g =? m) (Spec.insertByMinute goal l)
  = filter (fun g => minute_or_0 g =? m) (goal :: l).
Proof.
  induction l as [| h t IH]; [reflexivity |].
  cbn [Spec.insertByMinute].
  destruct (Z.leb_spec (minute_or_0 goal) (minute_or_0 h)); [reflexivity |].
  cbn [filter] in *. rewrite IH.
  destruct (Z.eqb_spec (minute_or_0 goal) m), (Z.eqb_spec (minute_or_0 h) m);
    try reflexivity; lia.
Qed.

Lemma sortByMinute_stable m goals :
  filter (fun g => minute_or_0 g =? m) (Spec.sortByMinute goals)
  = filter (fun g => minute_or_0 g =? m) goals.
Proof.
  induction goals as [| goal l IH]; [reflexivity |].
  cbn [Spec.sortByMinute fold_right]. rewrite insertByMinute_stable.
  cbn [filter]. fold (Spec.sortByMinute l). rewrite IH. reflexivity.
Qed.





(** ** The store *)

Section ListFacts.
Context {A : Type}.
Variable key : A -> Z.

Lemma find_snoc_fresh (k : Z) (l : list A) (x : A) :
  find (fun a => key a =? k) l = None ->
  key x = k ->
  find (fun a => key a =? k) (l ++ [x]) = Some x.
Proof.
  intros Hnone Hx. induction l as [| a l IH]; simpl in *.
  - rewrite Hx, Z.eqb_refl. reflexivity.
  - destruct (key a =? k); [discriminate | auto].
Qed.

Lemma filter_key_length (k : Z) (l : list A) :
  List.length (filter (fun a => key a =? k) l)
  = List.length (filter (fun z => z =? k) (map key l)).
Proof.
  induction l as [| a l IH]; simpl; [reflexivity |].
  destruct (key a =? k); simpl; rewrite IH; reflexivity.
Qed.
End ListFacts.

Lemma filter_absent (k : Z) (l : list Z) :
  ~ In k l -> filter (fun z => z =? k) l = [].
Proof.
  induction l as [| z l IH]; simpl; intros Hin; [reflexivity |].
  destruct (Z.eqb_spec z k) as [-> | _]; [tauto |].
  apply IH. tauto.
Qed.

Lemma filter_unique (k : Z) (l : list Z) :
  NoDup l -> In k l -> List.length (filter (fun z => z =? k) l) = 1%nat.
Proof.
  induction 1 as [| z l Hz Hl IH]; simpl; [tauto |].
  intros [-> | Hin].
  - rewrite Z.eqb_refl. simpl. rewrite (filter_absent k l Hz). reflexivity.
  - destruct (Z.eqb_spec z k) as [-> | _]; [contradiction | auto].
Qed.

Section SaveMatch.
Variables (matchData : MatchData) (ratingData : RatingResult) (w : World).

Lemma constructor_consistent vercel :
  FootballDatabase.consistent (FootballDatabase.constructor vercel).
Proof. repeat split; simpl; constructor. Qed.

Lemma loadInitialData_consistent db :
  FootballDatabase.consistent (FootballDatabase.loadInitialData db).
Proof.
  unfold FootballDatabase.consistent; simpl.
  repeat split; repeat constructor; simpl; intuition discriminate.
Qed.

Lemma saveMatch_consistent db :
  FootballDatabase.consistent db ->
  FootballDatabase.consistent
    (snd (FootballDatabase.saveMatch matchData ratingData w db)).
Proof.
  intros (Hapi & Hid & Hlt & Hmap). unfold FootballDatabase.saveMatch.
  destruct (find _ (FootballDatabase.matches db)) as [row |] eqn:Hfind.
  - simpl. repeat split; assumption.
  - assert (Hfresh : ~ In (id matchData)
                       (map MatchRow.api_id (FootballDatabase.matches db))).
    { intros Hin. apply in_map_iff in Hin as (m & Hm & Hin).
      pose proof (find_none _ _ Hfind m Hin) as Hf. simpl in Hf.
      rewrite Hm, Z.eqb_refl in Hf. discriminate. }
    assert (Hnew : ~ In (FootballDatabase.nextMatchId db)
                     (map MatchRow.id (FootballDatabase.matches db))).
    { intros Hin. apply in_map_iff in Hin as (m & Hm & Hin).
      rewrite Forall_forall in Hlt. specialize (Hlt m Hin). lia. }
    match goal with
    | |- FootballDatabase.consistent (snd (match ?c with _ => _ end)) =>
      destruct c
    end; cbn [snd]; unfold FootballDatabase.consistent;
      cbn [FootballDatabase.matches FootballDatabase.ratings
           FootballDatabase.nextMatchId];
      rewrite !map_app; cbn [map MatchRow.api_id MatchRow.id RatingRow.match_id].
    all: split; [| split; [| split]].
    all: try (apply NoDup_app; [assumption | repeat constructor; simpl; tauto |];
              intros a' Ha [<- | []]; contradiction).
    all: try (rewrite Hmap; reflexivity).
    all: apply Forall_app; split;
      [ eapply Forall_impl; [| exact Hlt]; simpl; intros; lia
      | repeat constructor; simpl; lia ].
Qed.

(** After a call the store holds a row for the identifier, [find]
    stops at it, and a completed call returned its id. *)
Lemma saveMatch_leaves_row db :
  exists row,
    find (fun m => MatchRow.api_id m =? id matchData)
         (FootballDatabase.matches
            (snd (FootballDatabase.saveMatch matchData ratingData w db)))
    = Some row
    /\ forall j,
        fst (FootballDatabase.saveMatch matchData ratingData w db) = Return j ->
        j = MatchRow.id row.
Proof.
  unfold FootballDatabase.saveMatch.
  destruct (find _ (FootballDatabase.matches db)) as [row |] eqn:Hfind.
  - exists row. cbn [fst snd]. split; [exact Hfind |].
    intros j Hj. congruence.
  - eexists. split.
    + match goal with
      | |- context [ snd (match ?c with _ => _ end) ] => destruct c
      end; cbn [snd FootballDatabase.matches];
        apply (find_snoc_fresh MatchRow.api_id); [exact Hfind | reflexivity
                                                 | exact Hfind | reflexivity].
    + intros j. destruct (FootballDatabase.saveData _ _); cbn [fst];
        intros Hj; [injection Hj as <-; reflexivity | discriminate].
Qed.
End SaveMatch.

Lemma reachable_consistent db :
  FootballDatabase.reachable db -> FootballDatabase.consistent db.
Proof.
  induction 1 as [vercel | db _ _ | db matchData ratingData w _ IH].
  - apply constructor_consistent.
  - apply loadInitialData_consistent.
  - apply saveMatch_consistent, IH.
Qed.

(** C9, as the code has it.  [saveMatch] is idempotent on the external
    identifier in every store: after a first call, a second call with
    the same [id] (whatever the rest of its arguments) leaves the store
    as it is and returns an internal id, the one the first call
    returned.  That there is then exactly one match row with that
    [api_id] and exactly one rating row for that internal id holds when
    the store was consistent, as every store built by the constructor,
    [loadInitialData] and [saveMatch] is ([reachable_consistent]). *)
Theorem saveMatch_idempotent (db : FootballDatabase.t)
    (matchData matchData' : MatchData) (ratingData ratingData' : RatingResult)
    (w w' : World) (Hid : id matchData' = id matchData) :
  let first := FootballDatabase.saveMatch matchData ratingData w db in
  let second := FootballDatabase.saveMatch matchData' ratingData' w' (snd first) in
  snd second = snd first
  /\ exists i,
      fst second = Return i
      /\ (forall j, fst first = Return j -> j = i)
      /\ (FootballDatabase.consistent db ->
          List.length (FootballDatabase.matchesWithApiId (id matchData) (snd second))
          = 1%nat
          /\ List.length (FootballDatabase.ratingsOfMatch i (snd second)) = 1%nat).
Proof.
  intros first second.
  destruct (saveMatch_leaves_row matchData ratingData w db) as (row & Hfind & Hret).
  fold first in Hfind, Hret.
  assert (Hsecond : second = (Return (MatchRow.id row), snd first)).
  { unfold second, FootballDatabase.saveMatch at 1. rewrite Hid, Hfind.
    reflexivity. }
  rewrite Hsecond. cbn [fst snd]. split; [reflexivity |].
  exists (MatchRow.id row). split; [reflexivity |]. split; [exact Hret |].
  intros Hcons.
  apply (saveMatch_consistent matchData ratingData w) in Hcons.
  fold first in Hcons. destruct Hcons as (Hapi & Hids & _ & Hmap).
  apply find_some in Hfind as [Hin Hkey]. simpl in Hkey.
  apply Z.eqb_eq in Hkey.
  unfold FootballDatabase.matchesWithApiId, FootballDatabase.ratingsOfMatch.
  rewrite (filter_key_length MatchRow.api_id), (filter_key_length RatingRow.match_id).
  rewrite Hmap. split; apply filter_unique; try assumption.
  - rewrite <- Hkey. apply in_map, Hin.
  - apply in_map, Hin.
Qed.

Lemma saveMatch_idempotent_witness :
  snd (FootballDatabase.saveMatch drawWithTwoGoals drawWithTwoGoalsRating
         sampleWorld savedOnce)
  = savedOnce
  /\ exists i,
      fst (FootballDatabase.saveMatch drawWithTwoGoals drawWithTwoGoalsRating
             sampleWorld savedOnce)
      = Return i
      /\ List.length (FootballDatabase.matchesWithApiId 1 savedOnce) = 1%nat
      /\ List.length (FootballDatabase.ratingsOfMatch i savedOnce) = 1%nat.
Proof.
  destruct (saveMatch_idempotent (FootballDatabase.constructor false)
              drawWithTwoGoals drawWithTwoGoals
              drawWithTwoGoalsRating drawWithTwoGoalsRating
              sampleWorld sampleWorld eq_refl)
    as (Hsame & i & Hret & _ & Hone).
  split; [exact Hsame |].
  exists i. split; [exact Hret |].
  rewrite Hsame in Hone. apply Hone, constructor_consistent.
Defined.

(** C9, as the specification states it ("for every store state"),
    fails.  [loadData] builds [loadedWithoutRatings] from a matches file
    with the row of api id 1 and no ratings file.  Both saves of api
    id 1 find that row and return its id 1 without inserting: the store
    keeps one match row for the identifier and no rating row. *)
Lemma saveMatch_twice_leaves_no_rating_row :
  fst (FootballDatabase.saveMatch drawWithTwoGoals drawWithTwoGoalsRating
         sampleWorld loadedWithoutRatings)
  = Return 1
  /\ snd (FootballDatabase.saveMatch drawWithTwoGoals drawWithTwoGoalsRating
            sampleWorld loadedWithoutRatings)
     = loadedWithoutRatings
  /\ fst (FootballDatabase.saveMatch drawWithTwoGoals drawWithTwoGoalsRating
            sampleWorld
            (snd (FootballDatabase.saveMatch drawWithTwoGoals drawWithTwoGoalsRating
                    sampleWorld loadedWithoutRatings)))
     = Return 1
  /\ List.length
       (FootballDatabase.matchesWithApiId (id drawWithTwoGoals)
          (snd (FootballDatabase.saveMatch drawWithTwoGoals drawWithTwoGoalsRating
                  sampleWorld
                  (snd (FootballDatabase.saveMatch drawWithTwoGoals
                          drawWithTwoGoalsRating sampleWorld
                          loadedWithoutRatings)))))
     = 1%nat
  /\ List.length
       (FootballDatabase.ratingsOfMatch 1
          (snd (FootballDatabase.saveMatch drawWithTwoGoals drawWithTwoGoalsRating
                  sampleWorld
                  (snd (FootballDatabase.saveMatch drawWithTwoGoals
                          drawWithTwoGoalsRating sampleWorld
                          loadedWithoutRatings)))))
     = 0%nat
  /\ List.length
       (FootballDatabase.ratingsOfMatch 1
          (snd (FootballDatabase.saveMatch drawWithTwoGoals drawWithTwoGoalsRating
                  sampleWorld
                  (snd (FootballDatabase.saveMatch drawWithTwoGoals
                          drawWithTwoGoalsRating sampleWorld
                          loadedWithoutRatings)))))
     <> 1%nat
  /\ ~ FootballDatabase.consistent loadedWithoutRatings.
Proof.
  repeat split; try discriminate.
  intros (_ & _ & _ & Hmap). discriminate Hmap.
Qed.

(** ** Scores outside the contract *)

(** C10. A negative argument falls through the six equality tests to
    the default branch: [calculateGoalVolumeScore] returns 50 on every
    negative integer, the value it returns from 6 goals on.  The input
    is neither clamped to 0 nor rejected: [calculateRating] returns on a
    match whose scores add up to a negative total, with volume 50. *)
Theorem volume_negative_is_50 (n : Z) (Hn : n < 0) :
  calculateGoalVolumeScore n = 50
  /\ calculateGoalVolumeScore n = calculateGoalVolumeScore 6
  /\ (forall matchData,
        Spec.wellFormed matchData ->
        homeScore matchData + awayScore matchData = n ->
        exists r,
          calculateRating matchData = Return r
          /\ goalVolume (breakdown r) = 50).
Proof.
  assert (H50 : calculateGoalVolumeScore n = 50).
  { pose proof (calculateGoalVolumeScore_cases n). lia. }
  repeat split; [exact H50 | exact H50 |].
  intros matchData Hwf Hsum. unfold Spec.wellFormed in Hwf.
  unfold calculateRating.
  destruct (goals matchData); [| congruence |];
    (eexists; split; [reflexivity |]);
    cbn [breakdown goalVolume]; unfold Math_round; rewrite Hsum; exact H50.
Qed.

Lemma volume_negative_is_50_witness :
  calculateGoalVolumeScore (-1) = 50
  /\ calculateGoalVolumeScore (-1) = calculateGoalVolumeScore 6
  /\ exists r,
      calculateRating negativeScoreMatch = Return r
      /\ goalVolume (breakdown r) = 50.
Proof.
  destruct (volume_negative_is_50 (-1) ltac:(lia)) as (H & H6 & Hrating).
  split; [exact H | split; [exact H6 |]].
  apply Hrating; [unfold Spec.wellFormed; simpl; discriminate | reflexivity].
Defined.

(** * Further properties of the engine *)

(** ** Timing *)

Lemma sumZ_app (l l' : list Z) : Spec.sumZ (l ++ l') = Spec.sumZ l + Spec.sumZ l'.
Proof. induction l as [| x l IH]; simpl; [reflexivity | rewrite IH; lia]. Qed.

Lemma sumZ_perm (l l' : list Z) : Permutation l l' -> Spec.sumZ l = Spec.sumZ l'.
Proof. induction 1; simpl; lia. Qed.

Lemma sumZ_nonneg (l : list Z) : Forall (fun x => 0 <= x) l -> 0 <= Spec.sumZ l.
Proof. induction 1; simpl; lia. Qed.

(** X1. The timing score does not depend on the order of the goal
    events. *)
Theorem timing_order_independent (goals goals' : list GoalEvent)
    (Hperm : Permutation goals goals') :
  calculateGoalTimingScore goals = calculateGoalTimingScore goals'.
Proof.
  unfold calculateGoalTimingScore. rewrite !fold_timingStep.
  rewrite (sumZ_perm _ _ (Permutation_map _ Hperm)). reflexivity.
Qed.

Lemma timing_order_independent_witness :
  calculateGoalTimingScore
    [ FootballDatabase.sampleGoal "home" 80; FootballDatabase.sampleGoal "away" 10 ]
  = calculateGoalTimingScore
    [ FootballDatabase.sampleGoal "away" 10; FootballDatabase.sampleGoal "home" 80 ].
Proof. apply timing_order_independent. apply perm_swap. Defined.

(** X2. Adding goal events anywhere in the list never lowers the timing
    score. *)
Theorem timing_monotone_in_goals (before extra after : list GoalEvent) :
  calculateGoalTimingScore (before ++ after)
  <= calculateGoalTimingScore (before ++ extra ++ after).
Proof.
  unfold calculateGoalTimingScore. rewrite !fold_timingStep.
  rewrite !map_app, !sumZ_app.
  pose proof (sum_bandPoints_nonneg extra). lia.
Qed.

Lemma bandPoints_by_window (m : Z) :
  Spec.bandPoints m
  = (if m <=? 15 then 3 else 0)
    + (if (75 <=? m) && (m <=? 79) then 3 else 0)
    + (if (80 <=? m) && (m <=? 89) then 5 else 0)
    + (if 90 <=? m then 10 else 0).
Proof.
  unfold Spec.bandPoints. rewrite !Z.geb_leb.
  repeat match goal with
         | |- context [ ?a <=? ?b ] => destruct (Z.leb_spec a b)
         end; simpl; lia.
Qed.

(** X3. The timing score in closed form: 3 points for each goal up to
    minute 15 (or without minute) and for each goal of minutes 75-79, 5
    for each goal of minutes 80-89, 10 for each goal from minute 90 on,
    capped at 25; goals of minutes 16-74 count for nothing. *)
Theorem timing_closed_form (goals : list GoalEvent) :
  calculateGoalTimingScore goals
  = Z.min
      (3 * countGoals (fun g => minute_or_0 g <=? 15) goals
       + 3 * countGoals (fun g => (75 <=? minute_or_0 g) && (minute_or_0 g <=? 79)) goals
       + 5 * countGoals (fun g => (80 <=? minute_or_0 g) && (minute_or_0 g <=? 89)) goals
       + 10 * countGoals (fun g => 90 <=? minute_or_0 g) goals)
      25.
Proof.
  unfold calculateGoalTimingScore, maxGoalTimingScore. rewrite fold_timingStep.
  f_equal. rewrite Z.add_0_l. unfold countGoals.
  induction goals as [| goal goals IH]; [reflexivity |].
  cbn [map filter].
  change (Spec.sumZ (?x :: ?l)) with (x + Spec.sumZ l). rewrite IH.
  rewrite bandPoints_by_window.
  repeat match goal with
         | |- context [ if ?c then _ else _ ] => destruct c
         end; cbn [List.length]; lia.
Qed.

(** ** Distribution *)

Lemma distributionStep_unrecognized (w : Walk) (goal : GoalEvent) :
  recognized goal = false -> distributionStep w goal = w.
Proof.
  unfold recognized, distributionStep. intros H.
  apply orb_false_iff in H as [-> ->]. reflexivity.
Qed.

Lemma fold_distributionStep_recognized (goals : list GoalEvent) :
  forall w,
    fold_left distributionStep goals w
    = fold_left distributionStep (filter recognized goals) w.
Proof.
  induction goals as [| goal goals IH]; intros w; [reflexivity |].
  cbn [fold_left filter]. destruct (recognized goal) eqn:Hrec.
  - cbn [fold_left]. apply IH.
  - rewrite (distributionStep_unrecognized w goal Hrec). apply IH.
Qed.

(** X4. Goal events whose [team] is neither ['home'] nor ['away'] are
    skipped by the distribution walk: deleting them from the list leaves
    the distribution score unchanged. *)
Theorem distribution_ignores_unrecognized_teams
    (matchData : MatchData) (goals : list GoalEvent) :
  calculateGoalDistributionScore matchData goals
  = calculateGoalDistributionScore matchData (filter recognized goals).
Proof.
  unfold calculateGoalDistributionScore.
  rewrite fold_distributionStep_recognized. reflexivity.
Qed.

(** The walk state seen from the other side. *)
Lemma distributionStep_swap (w : Walk) (goal : GoalEvent) :
  distributionStep
    {| walkScore := walkScore w; homeGoals := awayGoals w; awayGoals := homeGoals w |}
    (Sides.swapGoal goal)
  = {| walkScore := walkScore (distributionStep w goal);
       homeGoals := awayGoals (distributionStep w goal);
       awayGoals := homeGoals (distributionStep w goal) |}.
Proof.
  unfold distributionStep, Sides.swapGoal, minute_ge_80. cbn [team minute].
  destruct (team goal =? "home")%string eqn:Hh; [reflexivity |].
  destruct (team goal =? "away")%string eqn:Ha; [reflexivity |].
  rewrite Hh, Ha. reflexivity.
Qed.

Lemma fold_distributionStep_swap (goals : list GoalEvent) :
  forall w,
    fold_left distributionStep (map Sides.swapGoal goals)
      {| walkScore := walkScore w; homeGoals := awayGoals w; awayGoals := homeGoals w |}
    = {| walkScore := walkScore (fold_left distributionStep goals w);
         homeGoals := awayGoals (fold_left distributionStep goals w);
         awayGoals := homeGoals (fold_left distributionStep goals w) |}.
Proof.
  induction goals as [| goal goals IH]; intros w; [reflexivity |].
  cbn [map fold_left]. rewrite distributionStep_swap. apply (IH (distributionStep w goal)).
Qed.

Lemma distribution_swap (matchData swapped : MatchData) (goals : list GoalEvent) :
  homeScore swapped = awayScore matchData ->
  awayScore swapped = homeScore matchData ->
  calculateGoalDistributionScore swapped (map Sides.swapGoal goals)
  = calculateGoalDistributionScore matchData goals.
Proof.
  intros Hh Ha. unfold calculateGoalDistributionScore.
  assert (Hstart : walkStart swapped
                   = {| walkScore := walkScore (walkStart matchData);
                        homeGoals := awayGoals (walkStart matchData);
                        awayGoals := homeGoals (walkStart matchData) |}).
  { unfold walkStart. rewrite Hh, Ha. cbn [walkScore homeGoals awayGoals].
    rewrite andb_comm. reflexivity. }
  rewrite Hstart, fold_distributionStep_swap. reflexivity.
Qed.

Lemma timing_swap (goals : list GoalEvent) :
  calculateGoalTimingScore (map Sides.swapGoal goals) = calculateGoalTimingScore goals.
Proof.
  unfold calculateGoalTimingScore. rewrite !fold_timingStep, map_map. reflexivity.
Qed.

(** X5. The rating is symmetric in the two sides: exchanging home and
    away (score line and goal tags) gives the same three sub-scores, the
    same total and the same label. *)
Theorem rating_symmetric_in_sides (matchData : MatchData)
    (Hwf : Spec.wellFormed matchData) :
  exists r r',
    calculateRating matchData = Return r
    /\ calculateRating (Sides.swapSides matchData) = Return r'
    /\ breakdown r' = breakdown r
    /\ totalScore r' = totalScore r
    /\ rating r' = rating r.
Proof.
  unfold Spec.wellFormed in Hwf. unfold calculateRating.
  cbn [goals Sides.swapSides homeScore awayScore].
  destruct (goals matchData) as [| | l]; [| congruence |]; cbn [Sides.swapGoals];
    (do 2 eexists; split; [reflexivity |]; split; [reflexivity |]);
    cbn [breakdown totalScore rating goalVolume goalTiming goalDistribution].
  - match goal with
    | |- context [ calculateGoalDistributionScore ?m [] ] =>
      lazymatch m with
      | matchData => fail
      | _ =>
        pose proof (distribution_swap matchData m [] eq_refl eq_refl) as Hd;
        cbn [map] in Hd; rewrite !Hd
      end
    end.
    rewrite (Z.add_comm (awayScore matchData)). repeat split.
  - match goal with
    | |- context [ calculateGoalDistributionScore ?m (map Sides.swapGoal l) ] =>
      rewrite !(distribution_swap matchData m l eq_refl eq_refl)
    end.
    rewrite !timing_swap, (Z.add_comm (awayScore matchData)). repeat split.
Qed.

Lemma rating_symmetric_in_sides_witness :
  exists r r',
    calculateRating drawWithTwoGoals = Return r
    /\ calculateRating (Sides.swapSides drawWithTwoGoals) = Return r'
    /\ breakdown r' = breakdown r
    /\ totalScore r' = totalScore r
    /\ rating r' = rating r.
Proof.
  apply (rating_symmetric_in_sides drawWithTwoGoals).
  unfold Spec.wellFormed; simpl; discriminate.
Defined.

Lemma distributionStep_home_only (w : Walk) (goal : GoalEvent) :
  awayGoals w = 0 -> 0 <= homeGoals w -> team goal <> "away" ->
  distributionStep w goal
  = {| walkScore :=
         walkScore w
         + (if (team goal =? "home")%string && minute_ge_80 goal then 2 else 0);
       homeGoals := homeGoals w + (if (team goal =? "home")%string then 1 else 0);
       awayGoals := 0 |}.
Proof.
  destruct w as [s h a]. cbn [walkScore homeGoals awayGoals].
  intros -> Hh Hteam. unfold distributionStep. cbn [walkScore homeGoals awayGoals].
  destruct (String.eqb_spec (team goal) "home") as [_ | _].
  - rewrite !andb_false_r. destruct (Z.gtb_spec (h + 1) 0); [| lia].
    rewrite andb_true_r. cbn [andb].
    destruct (minute_ge_80 goal); rewrite ?Z.add_0_r; reflexivity.
  - destruct (String.eqb_spec (team goal) "away"); [contradiction |].
    cbn [andb]. rewrite !Z.add_0_r. reflexivity.
Qed.

Lemma distributionStep_away_only (w : Walk) (goal : GoalEvent) :
  homeGoals w = 0 -> 0 <= awayGoals w -> team goal <> "home" ->
  distributionStep w goal
  = {| walkScore :=
         walkScore w
         + (if (team goal =? "away")%string && minute_ge_80 goal then 2 else 0);
       homeGoals := 0;
       awayGoals := awayGoals w + (if (team goal =? "away")%string then 1 else 0) |}.
Proof.
  destruct w as [s h a]. cbn [walkScore homeGoals awayGoals].
  intros -> Ha Hteam. unfold distributionStep. cbn [walkScore homeGoals awayGoals].
  destruct (String.eqb_spec (team goal) "home"); [contradiction |].
  destruct (String.eqb_spec (team goal) "away") as [_ | _].
  - rewrite !andb_false_r. destruct (Z.gtb_spec (a + 1) 0); [| lia].
    rewrite andb_true_r. cbn [andb].
    destruct (minute_ge_80 goal); rewrite ?Z.add_0_r; reflexivity.
  - cbn [andb]. rewrite !Z.add_0_r. reflexivity.
Qed.

Lemma fold_distributionStep_home_only (goals : list GoalEvent) :
  forall w,
    awayGoals w = 0 -> 0 <= homeGoals w ->
    (forall g, In g goals -> team g <> "away") ->
    walkScore (fold_left distributionStep goals w)
    = walkScore w
      + 2 * countGoals (fun g => (team g =? "home")%string && minute_ge_80 g) goals.
Proof.
  unfold countGoals.
  induction goals as [| goal goals IH]; intros w Ha Hh Hteam; [simpl; lia |].
  cbn [fold_left filter].
  rewrite (distributionStep_home_only w goal Ha Hh (Hteam goal (or_introl eq_refl))).
  rewrite IH; cbn [walkScore homeGoals awayGoals];
    [| reflexivity | destruct (team goal =? "home")%string; lia
     | intros g Hg; apply Hteam; right; exact Hg].
  destruct ((team goal =? "home")%string && minute_ge_80 goal);
    cbn [List.length]; lia.
Qed.

Lemma fold_distributionStep_away_only (goals : list GoalEvent) :
  forall w,
    homeGoals w = 0 -> 0 <= awayGoals w ->
    (forall g, In g goals -> team g <> "home") ->
    walkScore (fold_left distributionStep goals w)
    = walkScore w
      + 2 * countGoals (fun g => (team g =? "away")%string && minute_ge_80 g) goals.
Proof.
  unfold countGoals.
  induction goals as [| goal goals IH]; intros w Hh Ha Hteam; [simpl; lia |].
  cbn [fold_left filter].
  rewrite (distributionStep_away_only w goal Hh Ha (Hteam goal (or_introl eq_refl))).
  rewrite IH; cbn [walkScore homeGoals awayGoals];
    [| reflexivity | destruct (team goal =? "away")%string; lia
     | intros g Hg; apply Hteam; right; exact Hg].
  destruct ((team goal =? "away")%string && minute_ge_80 goal);
    cbn [List.length]; lia.
Qed.

(** X6. When the goal list has goals of one side only, no comeback or
    equalizer bonus is earned: the distribution score is the
    both-teams-scored bonus of the score line plus 2 for each goal of
    that side from minute 80 on, capped at 25. *)
Theorem distribution_one_sided (matchData : MatchData) (goals : list GoalEvent) :
  let base :=
    if (homeScore matchData >? 0) && (awayScore matchData >? 0) then 15 else 0 in
  ((forall g, In g goals -> team g <> "away") ->
   calculateGoalDistributionScore matchData goals
   = Z.min
       (base + 2 * countGoals (fun g => (team g =? "home")%string && minute_ge_80 g)
                     goals)
       25)
  /\ ((forall g, In g goals -> team g <> "home") ->
      calculateGoalDistributionScore matchData goals
      = Z.min
          (base + 2 * countGoals (fun g => (team g =? "away")%string && minute_ge_80 g)
                        goals)
          25).
Proof.
  intros base.
  assert (Hbase : walkScore (walkStart matchData) = base).
  { unfold walkStart, base. cbn [walkScore].
    destruct ((homeScore matchData >? 0) && (awayScore matchData >? 0)); reflexivity. }
  unfold calculateGoalDistributionScore, maxGoalDistributionScore.
  split; intros Hteam.
  - rewrite fold_distributionStep_home_only, Hbase;
      [reflexivity | reflexivity | simpl; lia | exact Hteam].
  - rewrite fold_distributionStep_away_only, Hbase;
      [reflexivity | reflexivity | simpl; lia | exact Hteam].
Qed.

Lemma distribution_one_sided_witness :
  calculateGoalDistributionScore drawWithTwoGoals
    [ FootballDatabase.sampleGoal "home" 13; FootballDatabase.sampleGoal "home" 66;
      FootballDatabase.sampleGoal "home" 80 ]
  = Z.min
      (15 + 2 * countGoals (fun g => (team g =? "home")%string && minute_ge_80 g)
                  [ FootballDatabase.sampleGoal "home" 13;
                    FootballDatabase.sampleGoal "home" 66;
                    FootballDatabase.sampleGoal "home" 80 ])
      25.
Proof.
  apply (proj1 (distribution_one_sided drawWithTwoGoals _)).
  intros g [<- | [<- | [<- | []]]]; discriminate.
Defined.

(** ** Colours and legend *)

(** X7. On the scores 0..100 the engine's [getRatingColor] and the page
    script's [getRatingColor], looked up in the table the server sends,
    give the same colour.  Outside that range they differ: the page
    falls back to grey, the engine returns green above 100 and dark red
    below 0. *)
Theorem rating_colour_matches_legend (s : Z) :
  (0 <= s <= 100 ->
   Server.getRatingColor Server.ratingCategories s = getRatingColor s)
  /\ (100 < s ->
      Server.getRatingColor Server.ratingCategories s = "#64748b"
      /\ getRatingColor s = "#22c55e")
  /\ (s < 0 ->
      Server.getRatingColor Server.ratingCategories s = "#64748b"
      /\ getRatingColor s = "#dc2626").
Proof.
  unfold Server.getRatingColor, Server.ratingCategories, getRatingColor.
  cbn [find Server.min Server.max Server.color]. rewrite !Z.geb_leb.
  (split; [intros Hs | split; intros Hs; split]);
    repeat match goal with
           | |- context [ ?a <=? ?b ] => destruct (Z.leb_spec a b)
           end; cbn [andb]; try lia; reflexivity.
Qed.

Lemma rating_colour_matches_legend_witness :
  Server.getRatingColor Server.ratingCategories 43 = getRatingColor 43
  /\ Server.getRatingColor Server.ratingCategories 101 = "#64748b"
  /\ getRatingColor (-1) = "#dc2626".
Proof.
  split; [| split].
  - apply (proj1 (rating_colour_matches_legend 43)). lia.
  - apply (proj1 (proj2 (rating_colour_matches_legend 101))). lia.
  - apply (proj2 (proj2 (rating_colour_matches_legend (-1)))). lia.
Defined.

(** X8. The label the engine gives a score and the name of the legend
    entry whose range holds that score are two different vocabularies:
    on 0..100 they coincide exactly for the scores 0..14. *)
Theorem rating_label_versus_legend (s : Z) (Hs : 0 <= s <= 100) :
  exists cat,
    find (fun cat => (s >=? Server.min cat) && (s <=? Server.max cat))
         Server.ratingCategories
    = Some cat
    /\ (getRatingCategory s = Server.name cat <-> s <= 14).
Proof.
  unfold Server.ratingCategories, getRatingCategory.
  cbn [find Server.min Server.max]. rewrite !Z.geb_leb.
  repeat match goal with
         | |- context [ ?a <=? ?b ] => destruct (Z.leb_spec a b)
         end; cbn [andb]; try lia;
    (eexists; split; [reflexivity |]); cbn [Server.name];
    split; intros Heq; try lia; try discriminate; reflexivity.
Qed.

Lemma rating_label_versus_legend_witness :
  exists cat,
    find (fun cat => (43 >=? Server.min cat) && (43 <=? Server.max cat))
         Server.ratingCategories
    = Some cat
    /\ (getRatingCategory 43 = Server.name cat <-> 43 <= 14).
Proof. apply rating_label_versus_legend. lia. Defined.

(** * Further properties of the store and of the service *)

(** ** [Array.prototype.sort] *)

Section SortFacts.
Context {A : Type}.
Variable compareFn : A -> A -> Z.

Lemma Array_sort_insert_perm (x : A) (l : list A) :
  Permutation (x :: l) (Array_sort_insert compareFn x l).
Proof.
  induction l as [| y t IH]; simpl; [reflexivity |].
  destruct (compareFn x y <=? 0); [reflexivity |].
  rewrite perm_swap. constructor. exact IH.
Qed.

Lemma Array_sort_perm (l : list A) : Permutation l (Array_sort compareFn l).
Proof.
  induction l as [| x l IH]; simpl; [constructor |].
  rewrite <- Array_sort_insert_perm. constructor. exact IH.
Qed.

Lemma Array_sort_length (l : list A) :
  List.length (Array_sort compareFn l) = List.length l.
Proof. symmetry. apply Permutation_length, Array_sort_perm. Qed.

Lemma Array_sort_insert_first (x : A) (l : list A) :
  Forall (inOrder compareFn x) l -> Array_sort_insert compareFn x l = x :: l.
Proof.
  intros H. destruct H as [| y t Hy _]; simpl; [reflexivity |].
  unfold inOrder in Hy.
  destruct (Z.leb_spec (compareFn x y) 0); [reflexivity | lia].
Qed.

(** The comparator is consistent: any two elements are comparable and
    the order is transitive. *)
Hypothesis compareFn_total :
  forall x y, inOrder compareFn x y \/ inOrder compareFn y x.
Hypothesis compareFn_trans :
  forall x y z,
    inOrder compareFn x y -> inOrder compareFn y z -> inOrder compareFn x z.

Lemma Array_sort_insert_sorted (x : A) (l : list A) :
  StronglySorted (inOrder compareFn) l ->
  StronglySorted (inOrder compareFn) (Array_sort_insert compareFn x l).
Proof.
  induction 1 as [| y t Ht IH Hy]; simpl.
  - repeat constructor.
  - destruct (Z.leb_spec (compareFn x y) 0) as [Hxy | Hxy].
    + constructor; [constructor; assumption |].
      constructor; [exact Hxy |].
      eapply Forall_impl; [| exact Hy]. intros z Hz.
      exact (compareFn_trans x y z Hxy Hz).
    + constructor; [exact IH |].
      apply (Permutation_Forall (Array_sort_insert_perm x t)).
      constructor; [| exact Hy].
      destruct (compareFn_total x y) as [H | H];
        [unfold inOrder in H; lia | exact H].
Qed.

Lemma Array_sort_sorted (l : list A) :
  StronglySorted (inOrder compareFn) (Array_sort compareFn l).
Proof.
  induction l as [| x l IH]; simpl; [constructor |].
  apply Array_sort_insert_sorted, IH.
Qed.

Lemma filter_Array_sort_insert (keep : A -> bool) (x : A) (l : list A) :
  StronglySorted (inOrder compareFn) l ->
  filter keep (Array_sort_insert compareFn x l)
  = if keep x then Array_sort_insert compareFn x (filter keep l)
    else filter keep l.
Proof.
  induction 1 as [| y t Ht IH Hy]; cbn [Array_sort_insert filter].
  - destruct (keep x); reflexivity.
  - destruct (Z.leb_spec (compareFn x y) 0) as [Hxy | Hxy].
    + cbn [filter]. destruct (keep x); [| reflexivity].
      symmetry. apply Array_sort_insert_first.
      assert (Hall : Forall (inOrder compareFn x) (y :: t)).
      { constructor; [exact Hxy |].
        eapply Forall_impl; [| exact Hy]. intros z Hz.
        exact (compareFn_trans x y z Hxy Hz). }
      rewrite Forall_forall in Hall. apply Forall_forall.
      intros z Hz. apply Hall.
      change (In z (filter keep (y :: t))) in Hz.
      apply filter_In in Hz. tauto.
    + cbn [filter]. rewrite IH.
      destruct (keep y), (keep x); cbn [Array_sort_insert]; try reflexivity.
      destruct (Z.leb_spec (compareFn x y) 0); [lia | reflexivity].
Qed.

(** Sorting commutes with filtering: a stable sort does not reorder the
    elements it keeps. *)
Lemma filter_Array_sort (keep : A -> bool) (l : list A) :
  filter keep (Array_sort compareFn l) = Array_sort compareFn (filter keep l).
Proof.
  induction l as [| x l IH]; [reflexivity |].
  cbn [Array_sort fold_right filter].
  rewrite filter_Array_sort_insert by apply Array_sort_sorted.
  fold (Array_sort compareFn l). rewrite IH.
  destruct (keep x); reflexivity.
Qed.

Lemma StronglySorted_app_order (l1 l2 : list A) :
  StronglySorted (inOrder compareFn) (l1 ++ l2) ->
  forall x y, In x l1 -> In y l2 -> inOrder compareFn x y.
Proof.
  induction l1 as [| a l1 IH]; intros Hs x y Hx Hy; [contradiction |].
  cbn in Hs. apply StronglySorted_inv in Hs as [Hrest Ha].
  destruct Hx as [<- | Hx].
  - rewrite Forall_forall in Ha. apply Ha, in_or_app. right. exact Hy.
  - exact (IH Hrest x y Hx Hy).
Qed.

End SortFacts.

(** ** Saving *)

(** X9. A save whose disk write fails raises, but its two rows are
    already in memory: a retry with the same identifier finds the match
    row, returns its id and reports success without writing anything,
    whatever the state of the disk then. *)
Theorem saveMatch_retry_after_failed_write (db : FootballDatabase.t)
    (matchData matchData' : MatchData) (ratingData ratingData' : RatingResult)
    (w w' : World)
    (Hlocal : FootballDatabase.isVercel db = false)
    (Hfail : writeFileSync_ok w = false)
    (Hnew : find (fun m => MatchRow.api_id m =? id matchData)
                 (FootballDatabase.matches db) = None)
    (Hid : id matchData' = id matchData) :
  let first := FootballDatabase.saveMatch matchData ratingData w db in
  let second := FootballDatabase.saveMatch matchData' ratingData' w' (snd first) in
  fst first = Throw "Error"
  /\ List.length (FootballDatabase.matches (snd first))
     = S (List.length (FootballDatabase.matches db))
  /\ List.length (FootballDatabase.ratings (snd first))
     = S (List.length (FootballDatabase.ratings db))
  /\ fst second = Return (FootballDatabase.nextMatchId db)
  /\ snd second = snd first.
Proof.
  intros first second.
  assert (Hfirst : first
                   = (Throw "Error",
                      snd (FootballDatabase.saveMatch matchData ratingData w db))).
  { unfold first, FootballDatabase.saveMatch. rewrite Hnew.
    unfold FootballDatabase.saveData. cbn [FootballDatabase.isVercel].
    rewrite Hlocal, Hfail. reflexivity. }
  assert (Hrows : FootballDatabase.matches (snd first)
                  = (FootballDatabase.matches db
                     ++ [ {| MatchRow.id := FootballDatabase.nextMatchId db;
                             MatchRow.api_id := id matchData;
                             MatchRow.home_team := homeTeam matchData;
                             MatchRow.away_team := awayTeam matchData;
                             MatchRow.home_score := homeScore matchData;
                             MatchRow.away_score := awayScore matchData;
                             MatchRow.date := date matchData;
                             MatchRow.status := status matchData;
                             MatchRow.competition := competition matchData;
                             MatchRow.goals :=
                               FootballDatabase.goals_or_empty (goals matchData);
                             MatchRow.watchability_score := totalScore ratingData;
                             MatchRow.rating_category := rating ratingData;
                             MatchRow.created_at := nowMatch w |} ])%list
                  /\ List.length (FootballDatabase.ratings (snd first))
                     = S (List.length (FootballDatabase.ratings db))).
  { unfold first, FootballDatabase.saveMatch. rewrite Hnew.
    unfold FootballDatabase.saveData. cbn [FootballDatabase.isVercel].
    rewrite Hlocal, Hfail. cbn [snd FootballDatabase.matches FootballDatabase.ratings].
    split; [reflexivity |]. rewrite length_app. simpl. lia. }
  destruct Hrows as [Hrows Hratings].
  split; [rewrite Hfirst; reflexivity |].
  split; [rewrite Hrows, length_app; simpl; lia |].
  split; [exact Hratings |].
  assert (Hsecond : second = (Return (FootballDatabase.nextMatchId db), snd first)).
  { unfold second, FootballDatabase.saveMatch at 1.
    rewrite Hid, Hrows.
    match type of Hrows with
    | _ = (_ ++ [?row])%list =>
      rewrite (find_snoc_fresh MatchRow.api_id (id matchData) _ row Hnew eq_refl)
    end.
    reflexivity. }
  rewrite Hsecond. split; reflexivity.
Qed.

Lemma saveMatch_retry_after_failed_write_witness :
  fst (FootballDatabase.saveMatch drawWithTwoGoals drawWithTwoGoalsRating
         failingWorld (FootballDatabase.constructor false))
  = Throw "Error"
  /\ fst (FootballDatabase.saveMatch drawWithTwoGoals drawWithTwoGoalsRating
            failingWorld
            (snd (FootballDatabase.saveMatch drawWithTwoGoals drawWithTwoGoalsRating
                    failingWorld (FootballDatabase.constructor false))))
     = Return 1.
Proof.
  destruct (saveMatch_retry_after_failed_write (FootballDatabase.constructor false)
              drawWithTwoGoals drawWithTwoGoals
              drawWithTwoGoalsRating drawWithTwoGoalsRating
              failingWorld failingWorld eq_refl eq_refl eq_refl eq_refl)
    as (Hthrow & _ & _ & Hretry & _).
  split; [exact Hthrow | exact Hretry].
Defined.

(** ** Internal ids and restarts *)

Lemma seq_snoc (a n : nat) : seq a (S n) = (seq a n ++ [(a + n)%nat])%list.
Proof.
  revert a. induction n as [| n IH]; intros a.
  - simpl. rewrite Nat.add_0_r. reflexivity.
  - change (seq a (S (S n))) with (a :: seq (S a) (S n)).
    rewrite IH. simpl. rewrite Nat.add_succ_r. reflexivity.
Qed.

Lemma saveMatch_sequential (matchData : MatchData) (ratingData : RatingResult)
    (w : World) (db : FootballDatabase.t) :
  FootballDatabase.sequential db
  /\ List.length (FootballDatabase.ratings db)
     = List.length (FootballDatabase.matches db) ->
  FootballDatabase.sequential
    (snd (FootballDatabase.saveMatch matchData ratingData w db))
  /\ List.length
       (FootballDatabase.ratings
          (snd (FootballDatabase.saveMatch matchData ratingData w db)))
     = List.length
         (FootballDatabase.matches
            (snd (FootballDatabase.saveMatch matchData ratingData w db))).
Proof.
  intros [(Hm & Hnm & Hr & Hnr) Hlen]. unfold FootballDatabase.saveMatch.
  destruct (find _ (FootballDatabase.matches db)).
  - cbn [snd]. repeat split; assumption.
  - match goal with
    | |- context [ match ?c with Return _ => _ | Throw _ => _ end ] => destruct c
    end; cbn [snd]; unfold FootballDatabase.sequential;
      cbn [FootballDatabase.matches FootballDatabase.ratings
           FootballDatabase.nextMatchId FootballDatabase.nextRatingId];
      rewrite !map_app, !length_app, Hm, Hr, Hnm, Hnr;
      cbn [map List.length MatchRow.id RatingRow.id];
      rewrite !Nat.add_1_r, !seq_snoc, !map_app; cbn [map];
      (split; [split; [| split; [| split]] |]); try lia;
      f_equal; f_equal; lia.
Qed.

Lemma reachable_sequential (db : FootballDatabase.t) :
  FootballDatabase.reachable db ->
  FootballDatabase.sequential db
  /\ List.length (FootballDatabase.ratings db)
     = List.length (FootballDatabase.matches db).
Proof.
  induction 1 as [vercel | db _ _ | db matchData ratingData w _ IH].
  - repeat split.
  - repeat split.
  - apply saveMatch_sequential, IH.
Qed.

(** X10. In every store the class builds by itself the internal ids of
    the match rows and of the rating rows are 1, 2, ..., n in insertion
    order, each counter is n + 1, and there are as many rating rows as
    match rows. *)
Theorem reachable_ids_are_sequential (db : FootballDatabase.t)
    (Hreach : FootballDatabase.reachable db) :
  FootballDatabase.sequential db
  /\ List.length (FootballDatabase.ratings db)
     = List.length (FootballDatabase.matches db).
Proof. exact (reachable_sequential db Hreach). Qed.

Lemma reachable_ids_are_sequential_witness :
  FootballDatabase.sequential savedOnce
  /\ List.length (FootballDatabase.ratings savedOnce)
     = List.length (FootballDatabase.matches savedOnce).
Proof.
  apply reachable_ids_are_sequential.
  apply FootballDatabase.reachable_saveMatch, FootballDatabase.reachable_constructor.
Defined.

Lemma fold_max_seq (k : nat) :
  forall (a : nat) (m : Z),
    fold_left Z.max (map Z.of_nat (seq a k)) m
    = match k with
      | O => m
      | S _ => Z.max m (Z.of_nat (a + k - 1))
      end.
Proof.
  induction k as [| k IH]; intros a m; [reflexivity |].
  cbn [seq map fold_left]. rewrite IH. destruct k; lia.
Qed.

Lemma next_id_of_sequence (n : nat) :
  match map Z.of_nat (seq 1 n) with
  | [] => 1
  | x :: xs => Math_max x xs + 1
  end
  = Z.of_nat n + 1.
Proof.
  destruct n as [| n]; [reflexivity |].
  cbn [seq map]. unfold Math_max. rewrite fold_max_seq. destruct n; lia.
Qed.

(** X11. Restart round trip: [loadData] into a fresh object, from the
    two files a store built by the class has written, rebuilds that
    store, rows and counters. *)
Theorem loadData_restores_saved_store (db : FootballDatabase.t) (vercel : bool)
    (Hreach : FootballDatabase.reachable db) :
  FootballDatabase.loadData
    (FootballDatabase.matchesFileOf db) (FootballDatabase.ratingsFileOf db)
    (FootballDatabase.constructor vercel)
  = {| FootballDatabase.matches := FootballDatabase.matches db;
       FootballDatabase.ratings := FootballDatabase.ratings db;
       FootballDatabase.nextMatchId := FootballDatabase.nextMatchId db;
       FootballDatabase.nextRatingId := FootballDatabase.nextRatingId db;
       FootballDatabase.isVercel := vercel |}.
Proof.
  destruct (reachable_sequential db Hreach) as [(Hm & Hnm & Hr & Hnr) Hlen].
  unfold FootballDatabase.loadData, FootballDatabase.matchesFileOf,
    FootballDatabase.ratingsFileOf.
  cbn [FootballDatabase.matches FootballDatabase.ratings
       FootballDatabase.nextMatchId FootballDatabase.nextRatingId
       FootballDatabase.isVercel FootballDatabase.constructor].
  rewrite Hm, Hr, !next_id_of_sequence, Hnm, Hnr. reflexivity.
Qed.

Lemma loadData_restores_saved_store_witness :
  FootballDatabase.loadData
    (FootballDatabase.matchesFileOf savedOnce) (FootballDatabase.ratingsFileOf savedOnce)
    (FootballDatabase.constructor false)
  = savedOnce.
Proof.
  apply (loadData_restores_saved_store savedOnce false).
  apply FootballDatabase.reachable_saveMatch, FootballDatabase.reachable_constructor.
Defined.

Lemma fold_max_ge (xs : list Z) :
  forall a,
    a <= fold_left Z.max xs a
    /\ Forall (fun y => y <= fold_left Z.max xs a) xs.
Proof.
  induction xs as [| x xs IH]; intros a; cbn [fold_left].
  - split; [lia | constructor].
  - destruct (IH (Z.max a x)) as [Ha Hxs]. split; [lia |].
    constructor; [lia | exact Hxs].
Qed.

Lemma below_next_id {A : Type} (key : A -> Z) (rows : list A) (current : Z) :
  Forall
    (fun row =>
       key row
       < match map key rows with
         | [] => current
         | x :: xs => Math_max x xs + 1
         end)
    rows.
Proof.
  destruct rows as [| row rows]; [constructor |].
  cbn [map]. unfold Math_max.
  destruct (fold_max_ge (map key rows) (key row)) as [Hrow Hrows].
  constructor; [lia |].
  rewrite Forall_map in Hrows.
  eapply Forall_impl; [| exact Hrows]. cbn. intros; lia.
Qed.

(** X12. Whatever the two data files hold, after [loadData] into a
    fresh object every match id is below [nextMatchId] and every rating
    id below [nextRatingId], so the next saved match gets an id no
    loaded row has; and when either file cannot be read or parsed, both
    arrays are empty. *)
Theorem loadData_ids_below_counters (matchesFile : DataFile MatchRow.t)
    (ratingsFile : DataFile RatingRow.t) (vercel : bool) :
  let db :=
    FootballDatabase.loadData matchesFile ratingsFile
      (FootballDatabase.constructor vercel) in
  Forall (fun m => MatchRow.id m < FootballDatabase.nextMatchId db)
         (FootballDatabase.matches db)
  /\ Forall (fun r => RatingRow.id r < FootballDatabase.nextRatingId db)
            (FootballDatabase.ratings db)
  /\ ~ In (FootballDatabase.nextMatchId db)
          (map MatchRow.id (FootballDatabase.matches db))
  /\ (matchesFile = FileCorrupt \/ ratingsFile = FileCorrupt ->
      FootballDatabase.matches db = [] /\ FootballDatabase.ratings db = []).
Proof.
  intros db.
  assert (Hm : Forall (fun m => MatchRow.id m < FootballDatabase.nextMatchId db)
                      (FootballDatabase.matches db)).
  { unfold db, FootballDatabase.loadData, FootballDatabase.constructor.
    destruct matchesFile as [| | mrows], ratingsFile as [| | rrows];
      cbn [FootballDatabase.matches FootballDatabase.nextMatchId];
      try constructor; apply (below_next_id MatchRow.id). }
  split; [exact Hm |]. split; [| split].
  - unfold db, FootballDatabase.loadData, FootballDatabase.constructor.
    destruct matchesFile as [| | mrows], ratingsFile as [| | rrows];
      cbn [FootballDatabase.ratings FootballDatabase.nextRatingId];
      try constructor; apply (below_next_id RatingRow.id).
  - intros Hin. apply in_map_iff in Hin as (m & Hid & Hin).
    rewrite Forall_forall in Hm. specialize (Hm m Hin). lia.
  - unfold db, FootballDatabase.loadData.
    intros [-> | ->]; [| destruct matchesFile]; split; reflexivity.
Qed.

Lemma loadData_ids_below_counters_witness :
  FootballDatabase.matches
    (FootballDatabase.loadData (FootballDatabase.matchesFileOf savedOnce) FileCorrupt
       (FootballDatabase.constructor false)) = []
  /\ FootballDatabase.ratings
       (FootballDatabase.loadData (FootballDatabase.matchesFileOf savedOnce) FileCorrupt
          (FootballDatabase.constructor false)) = [].
Proof.
  apply (loadData_ids_below_counters
           (FootballDatabase.matchesFileOf savedOnce) FileCorrupt false).
  right. reflexivity.
Defined.

(** ** Reading *)

Lemma byDateDescending_total (Date_getTime : string -> Z) (x y : PresentedMatch.t) :
  inOrder (FootballDatabase.byDateDescending Date_getTime) x y
  \/ inOrder (FootballDatabase.byDateDescending Date_getTime) y x.
Proof. unfold inOrder, FootballDatabase.byDateDescending. lia. Qed.

Lemma byDateDescending_trans (Date_getTime : string -> Z) (x y z : PresentedMatch.t) :
  inOrder (FootballDatabase.byDateDescending Date_getTime) x y ->
  inOrder (FootballDatabase.byDateDescending Date_getTime) y z ->
  inOrder (FootballDatabase.byDateDescending Date_getTime) x z.
Proof. unfold inOrder, FootballDatabase.byDateDescending. lia. Qed.

Lemma byScoreDescending_total (x y : MatchRow.t) :
  inOrder FootballDatabase.byScoreDescending x y
  \/ inOrder FootballDatabase.byScoreDescending y x.
Proof. unfold inOrder, FootballDatabase.byScoreDescending. lia. Qed.

Lemma byScoreDescending_trans (x y z : MatchRow.t) :
  inOrder FootballDatabase.byScoreDescending x y ->
  inOrder FootballDatabase.byScoreDescending y z ->
  inOrder FootballDatabase.byScoreDescending x z.
Proof. unfold inOrder, FootballDatabase.byScoreDescending. lia. Qed.

Lemma StronglySorted_weaken {A : Type} (R R' : A -> A -> Prop) (l : list A) :
  (forall x y, R x y -> R' x y) -> StronglySorted R l -> StronglySorted R' l.
Proof.
  intros Himp. induction 1 as [| x l Hl IH Hx]; constructor; [exact IH |].
  eapply Forall_impl; [| exact Hx]. exact (Himp x).
Qed.

(** X13. [getAllMatches] returns every match of the store exactly once
    (it is a rearrangement of the presented rows) with later dates
    first. *)
Theorem getAllMatches_complete_and_ordered (Date_getTime : string -> Z)
    (db : FootballDatabase.t) :
  Permutation (map (FootballDatabase.presentMatch db) (FootballDatabase.matches db))
              (FootballDatabase.getAllMatches Date_getTime db)
  /\ StronglySorted (laterFirst Date_getTime)
                    (FootballDatabase.getAllMatches Date_getTime db).
Proof.
  unfold FootballDatabase.getAllMatches. split.
  - apply Array_sort_perm.
  - apply (StronglySorted_weaken
             (inOrder (FootballDatabase.byDateDescending Date_getTime))).
    + unfold inOrder, FootballDatabase.byDateDescending, laterFirst. intros; lia.
    + apply Array_sort_sorted;
        [apply byDateDescending_total | apply byDateDescending_trans].
Qed.

Lemma find_absent {A : Type} (key : A -> Z) (k : Z) (l : list A) :
  ~ In k (map key l) -> find (fun a => key a =? k) l = None.
Proof.
  induction l as [| a l IH]; cbn [map In find]; intros Hin; [reflexivity |].
  destruct (Z.eqb_spec (key a) k); [tauto |]. apply IH. tauto.
Qed.

(** X14. Round trip of a rating through the store.  After a match with
    an unknown identifier has been saved into a consistent store,
    [getAllMatches] lists it under the new internal id with the saved
    total, the saved breakdown and the saved label (['Unknown'] for an
    empty label), even when the disk write of that save failed. *)
Theorem saved_rating_is_read_back (Date_getTime : string -> Z)
    (db : FootballDatabase.t) (matchData : MatchData) (ratingData : RatingResult)
    (w : World)
    (Hcons : FootballDatabase.consistent db)
    (Hnew : find (fun m => MatchRow.api_id m =? id matchData)
                 (FootballDatabase.matches db) = None) :
  In {| PresentedMatch.id := FootballDatabase.nextMatchId db;
        PresentedMatch.apiId := id matchData;
        PresentedMatch.homeTeam := homeTeam matchData;
        PresentedMatch.awayTeam := awayTeam matchData;
        PresentedMatch.homeScore := homeScore matchData;
        PresentedMatch.awayScore := awayScore matchData;
        PresentedMatch.date := date matchData;
        PresentedMatch.status := status matchData;
        PresentedMatch.competition := competition matchData;
        PresentedMatch.goals := FootballDatabase.goals_or_empty (goals matchData);
        PresentedMatch.rating :=
          Some {| PresentedRating.totalScore := totalScore ratingData;
                  PresentedRating.breakdown := breakdown ratingData;
                  PresentedRating.category :=
                    FootballDatabase.or_Unknown (rating ratingData) |} |}
     (FootballDatabase.getAllMatches Date_getTime
        (snd (FootballDatabase.saveMatch matchData ratingData w db))).
Proof.
  destruct Hcons as (_ & _ & Hlt & Hmap).
  assert (Hfresh : find (fun r => RatingRow.match_id r
                                  =? FootballDatabase.nextMatchId db)
                        (FootballDatabase.ratings db) = None).
  { apply find_absent. rewrite Hmap. intros Hin.
    apply in_map_iff in Hin as (m & Hm & Hin).
    rewrite Forall_forall in Hlt. specialize (Hlt m Hin). lia. }
  unfold FootballDatabase.getAllMatches.
  apply (Permutation_in _ (Array_sort_perm _ _)).
  unfold FootballDatabase.saveMatch. rewrite Hnew.
  match goal with
  | |- context [ match ?c with Return _ => _ | Throw _ => _ end ] => destruct c
  end; cbn [snd FootballDatabase.matches];
    rewrite map_app; apply in_or_app; right; left;
    unfold FootballDatabase.presentMatch;
    cbn [FootballDatabase.ratings MatchRow.id MatchRow.api_id MatchRow.home_team
         MatchRow.away_team MatchRow.home_score MatchRow.away_score MatchRow.date
         MatchRow.status MatchRow.competition MatchRow.goals
         MatchRow.watchability_score MatchRow.rating_category];
    match goal with
    | |- context [ find _ (_ ++ [?row])%list ] =>
      rewrite (find_snoc_fresh RatingRow.match_id (FootballDatabase.nextMatchId db)
                 _ row Hfresh eq_refl)
    end;
    cbn [RatingRow.goal_volume_score RatingRow.goal_timing_score
         RatingRow.goal_distribution_score];
    destruct (breakdown ratingData); reflexivity.
Qed.

Lemma saved_rating_is_read_back_witness :
  exists p,
    In p (FootballDatabase.getAllMatches sampleDate savedOnce)
    /\ PresentedMatch.apiId p = 1
    /\ PresentedMatch.rating p
       = Some {| PresentedRating.totalScore := 43;
                 PresentedRating.breakdown :=
                   {| goalVolume := 15; goalTiming := 8; goalDistribution := 20 |};
                 PresentedRating.category := "Good" |}.
Proof.
  eexists. split.
  - apply (saved_rating_is_read_back sampleDate (FootballDatabase.constructor false)
             drawWithTwoGoals drawWithTwoGoalsRating sampleWorld).
    + apply constructor_consistent.
    + reflexivity.
  - split; reflexivity.
Defined.

Lemma map_filter_commute {A B : Type} (f : A -> B) (keep : B -> bool) (l : list A) :
  map f (filter (fun a => keep (f a)) l) = filter keep (map f l).
Proof.
  induction l as [| a l IH]; [reflexivity |].
  cbn [filter map]. destruct (keep (f a)); cbn [map]; rewrite IH; reflexivity.
Qed.

Lemma getMatchesByCompetition_filter (Date_getTime : string -> Z)
    (competition : string) (db : FootballDatabase.t) :
  FootballDatabase.getMatchesByCompetition Date_getTime competition db
  = filter (fun p => shownFor competition (PresentedMatch.competition p))
           (FootballDatabase.getAllMatches Date_getTime db).
Proof.
  unfold FootballDatabase.getAllMatches.
  rewrite (filter_Array_sort _ (byDateDescending_total Date_getTime)
             (byDateDescending_trans Date_getTime)).
  rewrite <- (map_filter_commute (FootballDatabase.presentMatch db)).
  unfold FootballDatabase.getMatchesByCompetition, shownFor.
  cbn [FootballDatabase.presentMatch PresentedMatch.competition].
  destruct (competition =? "Champions League")%string; [reflexivity |].
  destruct (competition =? "Premier League")%string; reflexivity.
Qed.

(** X15. The competition view is the all-matches view restricted to the
    competitions shown for the requested name, in the same order:
    filtering before the sort by date gives what filtering after it
    would. *)
Theorem getMatchesByCompetition_is_filtered_getAllMatches
    (Date_getTime : string -> Z) (competition : string) (db : FootballDatabase.t) :
  FootballDatabase.getMatchesByCompetition Date_getTime competition db
  = filter (fun p => shownFor competition (PresentedMatch.competition p))
           (FootballDatabase.getAllMatches Date_getTime db).
Proof. apply getMatchesByCompetition_filter. Qed.

Lemma prefix_append (p s : string) :
  prefix p s = true <-> exists rest, s = (p ++ rest)%string.
Proof.
  revert s. induction p as [| c p IH]; intros s.
  - split; [intros _; exists s; reflexivity | intros _; destruct s; reflexivity].
  - destruct s as [| c' s]; cbn [prefix].
    + split; [discriminate | intros [rest H]; discriminate].
    + destruct (Ascii.ascii_dec c c') as [<- | Hne].
      * rewrite IH. split; intros [rest H]; exists rest.
        -- cbn. rewrite H. reflexivity.
        -- cbn in H. injection H as H. exact H.
      * split; [discriminate | intros [rest H]; cbn in H; congruence].
Qed.

(** [String_includes] finds exactly the occurrences of the search string. *)
Lemma String_includes_occurs (p s : string) :
  String_includes p s = true
  <-> exists before rest, s = (before ++ p ++ rest)%string.
Proof.
  induction s as [| c s IH]; cbn [String_includes].
  - rewrite orb_false_r, prefix_append. split.
    + intros [rest H]. exists EmptyString, rest. exact H.
    + intros (before & rest & H). destruct before; [exists rest; exact H | discriminate].
  - rewrite orb_true_iff, prefix_append, IH. split.
    + intros [[rest H] | (before & rest & H)].
      * exists EmptyString, rest. exact H.
      * exists (String c before), rest. cbn. rewrite H. reflexivity.
    + intros (before & rest & H). destruct before as [| c' before].
      * left. exists rest. exact H.
      * right. cbn in H. injection H as _ H. exists before, rest. exact H.
Qed.

Lemma append_empty_r (s : string) : (s ++ EmptyString)%string = s.
Proof. induction s as [| c s IH]; cbn; [reflexivity | rewrite IH; reflexivity]. Qed.

Lemma shownFor_exact (requested : string) : shownFor requested requested = true.
Proof.
  assert (Hself : String_includes requested requested = true).
  { apply String_includes_occurs. exists EmptyString, EmptyString.
    cbn. rewrite append_empty_r. reflexivity. }
  unfold shownFor.
  destruct (String.eqb_spec requested "Champions League") as [Heq | _];
    [rewrite Heq in Hself at 1; exact Hself |].
  destruct (String.eqb_spec requested "Premier League") as [Heq | _];
    [rewrite Heq in Hself at 1; exact Hself |].
  apply String.eqb_refl.
Qed.

Lemma shownFor_contains (requested name : string) :
  shownFor requested name = true ->
  exists before rest, name = (before ++ requested ++ rest)%string.
Proof.
  unfold shownFor.
  destruct (String.eqb_spec requested "Champions League") as [-> | _];
    [apply String_includes_occurs |].
  destruct (String.eqb_spec requested "Premier League") as [-> | _];
    [apply String_includes_occurs |].
  intros H. apply String.eqb_eq in H as ->.
  exists EmptyString, EmptyString. cbn. rewrite append_empty_r. reflexivity.
Qed.

(** X16. Competition aliasing.  For every requested name, each stored
    match whose competition is exactly that name is returned, and each
    returned match has a competition that contains the requested name;
    for a name other than the two special ones only exact matches are
    returned. *)
Theorem getMatchesByCompetition_aliasing (Date_getTime : string -> Z)
    (competition : string) (db : FootballDatabase.t) :
  (forall row,
      In row (FootballDatabase.matches db) ->
      MatchRow.competition row = competition ->
      In (FootballDatabase.presentMatch db row)
         (FootballDatabase.getMatchesByCompetition Date_getTime competition db))
  /\ (forall p,
        In p (FootballDatabase.getMatchesByCompetition Date_getTime competition db) ->
        exists before rest,
          PresentedMatch.competition p = (before ++ competition ++ rest)%string)
  /\ (competition <> "Champions League" ->
      competition <> "Premier League" ->
      forall p,
        In p (FootballDatabase.getMatchesByCompetition Date_getTime competition db) ->
        PresentedMatch.competition p = competition).
Proof.
  rewrite getMatchesByCompetition_filter.
  split; [| split].
  - intros row Hin Hname. apply filter_In. split.
    + apply (Permutation_in _ (Array_sort_perm _ _)). apply in_map. exact Hin.
    + cbn [FootballDatabase.presentMatch PresentedMatch.competition].
      rewrite Hname. apply shownFor_exact.
  - intros p Hp. apply filter_In in Hp as [_ Hp]. apply shownFor_contains, Hp.
  - intros Hcl Hpl p Hp. apply filter_In in Hp as [_ Hp]. unfold shownFor in Hp.
    destruct (String.eqb_spec competition "Champions League"); [contradiction |].
    destruct (String.eqb_spec competition "Premier League"); [contradiction |].
    apply String.eqb_eq, Hp.
Qed.

Lemma getMatchesByCompetition_aliasing_witness :
  exists p,
    In p (FootballDatabase.getMatchesByCompetition sampleDate "Premier League"
            sampleStore)
    /\ PresentedMatch.homeTeam p = "Arsenal FC".
Proof.
  destruct (getMatchesByCompetition_aliasing sampleDate "Premier League" sampleStore)
    as (Hexact & _ & _).
  eexists. split.
  - apply Hexact; [left; reflexivity | reflexivity].
  - reflexivity.
Defined.

(** ** Top-rated matches *)

Lemma Array_slice_0_split {A : Type} (end_ : Z) (l : list A) :
  exists rest,
    l = (Array_slice_0 end_ l ++ rest)%list
    /\ Z.of_nat (List.length (Array_slice_0 end_ l))
       = if end_ <? 0 then Z.max (Z.of_nat (List.length l) + end_) 0
         else Z.min end_ (Z.of_nat (List.length l)).
Proof.
  unfold Array_slice_0.
  set (k := if end_ <? 0 then Z.max (Z.of_nat (List.length l) + end_) 0
            else Z.min end_ (Z.of_nat (List.length l))).
  exists (skipn (Z.to_nat k) l). split.
  - symmetry. apply firstn_skipn.
  - rewrite length_firstn. unfold k.
    destruct (Z.ltb_spec end_ 0); lia.
Qed.

Lemma getTopRatedMatches_spec (limit : Z) (db : FootballDatabase.t) :
  exists top rest,
    FootballDatabase.getTopRatedMatches limit db
    = map (FootballDatabase.presentMatch db) top
    /\ Permutation (FootballDatabase.matches db) (top ++ rest)
    /\ StronglySorted higherFirst top
    /\ (forall t r, In t top -> In r rest -> higherFirst t r)
    /\ Z.of_nat (List.length top)
       = if limit <? 0
         then Z.max (Z.of_nat (List.length (FootballDatabase.matches db)) + limit) 0
         else Z.min limit (Z.of_nat (List.length (FootballDatabase.matches db))).
Proof.
  unfold FootballDatabase.getTopRatedMatches.
  set (sorted := Array_sort FootballDatabase.byScoreDescending
                   (FootballDatabase.matches db)).
  destruct (Array_slice_0_split limit sorted) as (rest & Hsplit & Hlen).
  assert (Hsorted : StronglySorted (inOrder FootballDatabase.byScoreDescending)
                      (Array_slice_0 limit sorted ++ rest)).
  { rewrite <- Hsplit. apply Array_sort_sorted;
      [apply byScoreDescending_total | apply byScoreDescending_trans]. }
  assert (Himp : forall x y,
             inOrder FootballDatabase.byScoreDescending x y -> higherFirst x y).
  { unfold inOrder, FootballDatabase.byScoreDescending, higherFirst. intros; lia. }
  exists (Array_slice_0 limit sorted), rest.
  split; [reflexivity |]. split; [| split; [| split]].
  - rewrite <- Hsplit. apply Array_sort_perm.
  - apply (StronglySorted_weaken _ _ _ Himp).
    clear Hsplit Hlen. induction (Array_slice_0 limit sorted) as [| a l IH];
      [constructor |].
    cbn in Hsorted. apply StronglySorted_inv in Hsorted as [Hrest Ha].
    constructor; [exact (IH Hrest) |].
    apply Forall_app in Ha. tauto.
  - intros t r Ht Hr. apply Himp.
    exact (StronglySorted_app_order _ _ _ Hsorted t r Ht Hr).
  - rewrite Hlen. unfold sorted. rewrite Array_sort_length. reflexivity.
Qed.

(** X17. [getTopRatedMatches] presents a prefix of the matches ordered
    by stored score, highest first: the matches it presents and the
    matches it leaves out together are the stored matches, no match
    left out has a higher score than a presented one, and the number
    presented is min(limit, n) for a limit of 0 or more and
    max(n + limit, 0) for a negative limit (all but the -limit lowest). *)
Theorem getTopRatedMatches_are_the_top (limit : Z) (db : FootballDatabase.t) :
  exists top rest,
    FootballDatabase.getTopRatedMatches limit db
    = map (FootballDatabase.presentMatch db) top
    /\ Permutation (FootballDatabase.matches db) (top ++ rest)
    /\ StronglySorted higherFirst top
    /\ (forall t r, In t top -> In r rest -> higherFirst t r)
    /\ Z.of_nat (List.length top)
       = if limit <? 0
         then Z.max (Z.of_nat (List.length (FootballDatabase.matches db)) + limit) 0
         else Z.min limit (Z.of_nat (List.length (FootballDatabase.matches db))).
Proof. apply getTopRatedMatches_spec. Qed.

(** X18. The route [/api/matches/top-rated] cannot be asked for zero
    matches: a missing, non-numeric or zero [limit] gives
    min(10, n) matches, a positive limit k gives min(k, n), and a
    negative limit k gives max(n + k, 0). *)
Theorem topRated_answer_length (parsed : option Z) (db : FootballDatabase.t) :
  let n := Z.of_nat (List.length (FootballDatabase.matches db)) in
  Z.of_nat (List.length (Server.topRated parsed db))
  = match parsed with
    | None | Some 0 => Z.min 10 n
    | Some k => if k <? 0 then Z.max (n + k) 0 else Z.min k n
    end.
Proof.
  intros n. unfold Server.topRated.
  destruct (getTopRatedMatches_spec (Server.limit_or_10 parsed) db)
    as (top & rest & -> & _ & _ & _ & Hlen).
  rewrite length_map, Hlen. fold n.
  destruct parsed as [[| k | k] |]; reflexivity.
Qed.

(** ** The fetch route *)

Lemma find_app_found {A : Type} (f : A -> bool) (l l' : list A) (x : A) :
  find f l = Some x -> find f (l ++ l') = Some x.
Proof.
  induction l as [| a l IH]; cbn [find app]; [discriminate |].
  destruct (f a); [trivial | exact IH].
Qed.

Lemma saveMatch_appends (matchData : MatchData) (ratingData : RatingResult)
    (w : World) (db : FootballDatabase.t) :
  FootballDatabase.matches
    (snd (FootballDatabase.saveMatch matchData ratingData w db))
  = FootballDatabase.matches db
  \/ exists row,
      FootballDatabase.matches
        (snd (FootballDatabase.saveMatch matchData ratingData w db))
      = (FootballDatabase.matches db ++ [row])%list
      /\ MatchRow.api_id row = id matchData
      /\ MatchRow.watchability_score row = totalScore ratingData
      /\ MatchRow.rating_category row = rating ratingData.
Proof.
  unfold FootballDatabase.saveMatch.
  destruct (find _ (FootballDatabase.matches db)); [left; reflexivity |].
  right. eexists.
  match goal with
  | |- context [ match ?c with Return _ => _ | Throw _ => _ end ] => destruct c
  end; cbn [snd FootballDatabase.matches]; (split; [reflexivity |]);
    repeat split.
Qed.

Lemma saveMatch_keeps_found (matchData : MatchData) (ratingData : RatingResult)
    (w : World) (db : FootballDatabase.t) (f : MatchRow.t -> bool) (row : MatchRow.t) :
  find f (FootballDatabase.matches db) = Some row ->
  find f (FootballDatabase.matches
            (snd (FootballDatabase.saveMatch matchData ratingData w db)))
  = Some row.
Proof.
  intros H.
  destruct (saveMatch_appends matchData ratingData w db) as [-> | (new & -> & _)];
    [exact H | apply find_app_found, H].
Qed.

Lemma calculateRating_total_bounds (matchData : MatchData) (r : RatingResult) :
  calculateRating matchData = Return r -> 0 <= totalScore r <= 100.
Proof.
  unfold calculateRating.
  destruct (goals matchData) as [| | l]; intros H; try discriminate;
    injection H as <-; cbn [totalScore]; unfold Math_round;
    match goal with
    | |- context [ calculateGoalDistributionScore ?m ?g ] =>
      pose proof (calculateGoalDistributionScore_bounds m g);
      pose proof (calculateGoalTimingScore_bounds g)
    end;
    pose proof
      (calculateGoalVolumeScore_bounds (homeScore matchData + awayScore matchData));
    lia.
Qed.

Section FetchRoute.
Variable world : nat -> World.

Lemma rateAndSave_keeps_found (matches : list MatchData) :
  forall k db f row,
    find f (FootballDatabase.matches db) = Some row ->
    find f (FootballDatabase.matches (snd (Server.rateAndSave world k matches db)))
    = Some row.
Proof.
  induction matches as [| m rest IH]; intros k db f row Hfound; [exact Hfound |].
  cbn [Server.rateAndSave].
  destruct (negb (status m =? "FINISHED")%string); [apply IH, Hfound |].
  destruct (calculateRating m) as [r | e]; [| exact Hfound].
  pose proof (saveMatch_keeps_found m r (world k) db f row Hfound) as Hsaved.
  destruct (FootballDatabase.saveMatch m r (world k) db) as [[i | e] db'];
    cbn [snd] in Hsaved; [| exact Hsaved].
  specialize (IH (S k) db' f row Hsaved).
  destruct (Server.rateAndSave world (S k) rest db') as [[rated | e] db''];
    exact IH.
Qed.

Lemma rateAndSave_all_known (matches : list MatchData) :
  forall k db rated db1,
    Server.rateAndSave world k matches db = (Return rated, db1) ->
    forall m,
      In m matches -> status m = "FINISHED" ->
      exists row,
        find (fun x => MatchRow.api_id x =? id m) (FootballDatabase.matches db1)
        = Some row.
Proof.
  induction matches as [| m rest IH]; intros k db rated db1 Hrun m' Hin Hfin;
    [contradiction |].
  cbn [Server.rateAndSave] in Hrun.
  destruct (String.eqb_spec (status m) "FINISHED") as [Hm | Hm]; cbn [negb] in Hrun.
  - destruct (calculateRating m) as [r | e]; [| discriminate].
    destruct (saveMatch_leaves_row m r (world k) db) as (row & Hrow & _).
    destruct (FootballDatabase.saveMatch m r (world k) db) as [[i | e] db'];
      [| discriminate].
    cbn [snd] in Hrow.
    pose proof (rateAndSave_keeps_found rest (S k) db' _ row Hrow) as Hkept.
    destruct (Server.rateAndSave world (S k) rest db') as [[rated' | e] db'']
      eqn:Hrest; [| discriminate].
    injection Hrun as _ <-. cbn [snd] in Hkept.
    destruct Hin as [<- | Hin].
    + exists row. exact Hkept.
    + exact (IH (S k) db' rated' db'' Hrest m' Hin Hfin).
  - destruct Hin as [<- | Hin]; [contradiction |].
    exact (IH (S k) db rated db1 Hrun m' Hin Hfin).
Qed.

End FetchRoute.

Lemma rateAndSave_replay (matches : list MatchData) :
  forall world k db0 rated db1 world' k' db,
    Server.rateAndSave world k matches db0 = (Return rated, db1) ->
    (forall m,
        In m matches -> status m = "FINISHED" ->
        exists row,
          find (fun x => MatchRow.api_id x =? id m) (FootballDatabase.matches db)
          = Some row) ->
    Server.rateAndSave world' k' matches db = (Return rated, db).
Proof.
  induction matches as [| m rest IH];
    intros world k db0 rated db1 world' k' db Hrun Hknown.
  - cbn in Hrun. injection Hrun as <- _. reflexivity.
  - cbn [Server.rateAndSave] in *.
    destruct (String.eqb_spec (status m) "FINISHED") as [Hm | Hm]; cbn [negb] in *.
    + destruct (calculateRating m) as [r | e]; [| discriminate].
      destruct (FootballDatabase.saveMatch m r (world k) db0) as [[i | e] db0'];
        [| discriminate].
      destruct (Server.rateAndSave world (S k) rest db0') as [[rated' | e] db0'']
        eqn:Hrest; [| discriminate].
      injection Hrun as <- _.
      destruct (Hknown m (or_introl eq_refl) Hm) as [row Hrow].
      unfold FootballDatabase.saveMatch. rewrite Hrow.
      rewrite (IH world (S k) db0' rated' db0'' world' (S k') db Hrest).
      * reflexivity.
      * intros m' Hin Hfin. apply Hknown; [right; exact Hin | exact Hfin].
    + apply (IH world (S k) db0 rated db1 world' (S k') db Hrun).
      intros m' Hin Hfin. apply Hknown; [right; exact Hin | exact Hfin].
Qed.

(** X19. The fetch route is idempotent on a batch: once the loop has
    run to its end on a list of fetched matches, running it again on
    the same list, with any clock and disk, changes nothing in the
    store and rates the same matches with the same ratings. *)
Theorem rateAndSave_idempotent (world world' : nat -> World) (k k' : nat)
    (matches : list MatchData) (db db1 : FootballDatabase.t)
    (rated : list (MatchData * RatingResult))
    (Hrun : Server.rateAndSave world k matches db = (Return rated, db1)) :
  Server.rateAndSave world' k' matches db1 = (Return rated, db1).
Proof.
  apply (rateAndSave_replay matches world k db rated db1 world' k' db1 Hrun).
  exact (rateAndSave_all_known world matches k db rated db1 Hrun).
Qed.

Lemma rateAndSave_idempotent_witness :
  Server.rateAndSave (fun _ => failingWorld) 0 [drawWithTwoGoals] savedOnce
  = (Return [(drawWithTwoGoals, drawWithTwoGoalsRating)], savedOnce).
Proof.
  apply (rateAndSave_idempotent (fun _ => sampleWorld) (fun _ => failingWorld) 0 0
           [drawWithTwoGoals] (FootballDatabase.constructor false)).
  reflexivity.
Defined.

Lemma ratedFrom_cons (m : MatchData) (rest : list MatchData) (row : MatchRow.t) :
  ratedFrom rest row -> ratedFrom (m :: rest) row.
Proof.
  intros (m0 & r & Hin & Hrest). exists m0, r.
  split; [right; exact Hin | exact Hrest].
Qed.

Lemma saveMatch_added_rows (m : MatchData) (rest : list MatchData)
    (r : RatingResult) (w : World) (db : FootballDatabase.t) :
  status m = "FINISHED" -> calculateRating m = Return r ->
  exists added,
    FootballDatabase.matches (snd (FootballDatabase.saveMatch m r w db))
    = (FootballDatabase.matches db ++ added)%list
    /\ Forall (ratedFrom (m :: rest)) added.
Proof.
  intros Hm Hr.
  destruct (saveMatch_appends m r w db)
    as [Hsame | (row & Hrow & Hapi & Hscore & Hlabel)].
  - exists []. split; [rewrite Hsame, app_nil_r; reflexivity | constructor].
  - exists [row]. split; [exact Hrow |]. constructor; [| constructor].
    exists m, r. repeat split; try assumption; try (left; reflexivity);
      rewrite Hscore; apply (calculateRating_total_bounds m r Hr).
Qed.

(** X20. Whatever the outcome of the fetch loop, it only appends to the
    stored matches, and every row it appends belongs to a finished
    match of the batch and carries the engine's rating of that match:
    its total, between 0 and 100, and its label. *)
Theorem rateAndSave_stores_engine_ratings (world : nat -> World)
    (matches : list MatchData) :
  forall k db,
    exists added,
      FootballDatabase.matches (snd (Server.rateAndSave world k matches db))
      = (FootballDatabase.matches db ++ added)%list
      /\ Forall (ratedFrom matches) added.
Proof.
  induction matches as [| m rest IH]; intros k db.
  - exists []. split; [symmetry; apply app_nil_r | constructor].
  - cbn [Server.rateAndSave].
    destruct (String.eqb_spec (status m) "FINISHED") as [Hm | Hm]; cbn [negb].
    + destruct (calculateRating m) as [r | e] eqn:Hr.
      * destruct (saveMatch_added_rows m rest r (world k) db Hm Hr)
          as (pre & Hpre & Hrows).
        destruct (FootballDatabase.saveMatch m r (world k) db) as [[i | e] db'];
          cbn [snd] in Hpre; [| exists pre; split; assumption].
        destruct (IH (S k) db') as (added & Hadded & Hrest).
        exists (pre ++ added)%list.
        destruct (Server.rateAndSave world (S k) rest db') as [[rated | e] db''];
          cbn [snd] in *;
          (split; [rewrite Hadded, Hpre, app_assoc; reflexivity |]);
          (apply Forall_app; split; [exact Hrows |]);
          (eapply Forall_impl; [| exact Hrest]); apply ratedFrom_cons.
      * exists []. cbn [snd]. split; [symmetry; apply app_nil_r | constructor].
    + destruct (IH (S k) db) as (added & Hadded & Hrest).
      exists added. split; [exact Hadded |].
      eapply Forall_impl; [| exact Hrest]. apply ratedFrom_cons.
Qed.

(** * Further properties of the data-fetch client *)

Lemma Array_sort_insert_byMinute (goal : GoalEvent) (l : list GoalEvent) :
  hasMinute goal -> Forall hasMinute l ->
  Array_sort_insert FootballAPIService.byMinute goal l = Spec.insertByMinute goal l.
Proof.
  intros Hg Hl. induction Hl as [| h t Hh _ IH]; [reflexivity |].
  cbn [Array_sort_insert Spec.insertByMinute]. rewrite IH.
  unfold FootballAPIService.byMinute, minute_or_0, hasMinute in *.
  destruct (minute goal) as [x |]; [| congruence].
  destruct (minute h) as [y |]; [| congruence].
  destruct (Z.leb_spec (x - y) 0), (Z.leb_spec x y); try lia; reflexivity.
Qed.

(** On goals that all have a minute, the client's
    [goals.sort((a, b) => a.minute - b.minute)] is the stable sort by
    minute. *)
Lemma Array_sort_byMinute (l : list GoalEvent) :
  Forall hasMinute l ->
  Array_sort FootballAPIService.byMinute l = Spec.sortByMinute l.
Proof.
  induction 1 as [| goal l Hg Hl IH]; [reflexivity |].
  cbn [Array_sort Spec.sortByMinute fold_right].
  fold (Array_sort FootballAPIService.byMinute l). fold (Spec.sortByMinute l).
  rewrite IH. apply Array_sort_insert_byMinute; [exact Hg |].
  apply (Permutation_Forall (sortByMinute_perm l)), Hl.
Qed.

(** What every goal the client builds satisfies. *)
Lemma dummyGoals_shape (t : string) (count : Z) (random : nat -> Z) (first : nat) :
  recognized {| team := t; minute := None; scorer := None; type := None |} = true ->
  Forall (fun g => recognized g = true /\ hasMinute g)
         (FootballAPIService.dummyGoals t count random first).
Proof.
  intros Ht. unfold FootballAPIService.dummyGoals.
  apply Forall_map, Forall_forall. intros k _. split; [exact Ht | discriminate].
Qed.

Lemma extractGoals_shape (random : nat -> Z) (used : nat) (m : ApiMatch.t) :
  Forall (fun g => recognized g = true /\ hasMinute g)
         (fst (FootballAPIService.extractGoals random used m))
  /\ Spec.minuteOrdered (fst (FootballAPIService.extractGoals random used m)).
Proof.
  assert (Hsorted : forall l,
             Forall (fun g => recognized g = true /\ hasMinute g) l ->
             Forall (fun g => recognized g = true /\ hasMinute g)
                    (Array_sort FootballAPIService.byMinute l)
             /\ Spec.minuteOrdered (Array_sort FootballAPIService.byMinute l)).
  { intros l Hl. split.
    - apply (Permutation_Forall (Array_sort_perm _ l)), Hl.
    - rewrite Array_sort_byMinute; [apply sortByMinute_sorted |].
      eapply Forall_impl; [| exact Hl]. cbn. tauto. }
  unfold FootballAPIService.extractGoals.
  destruct (ApiMatch.goals m) as [[| g l] |]; cbn [fst]; apply Hsorted.
  - apply Forall_app. split; apply dummyGoals_shape; reflexivity.
  - apply Forall_map, Forall_forall. intros goal _. cbn [team].
    split; [| discriminate].
    destruct (ApiGoal.team_id goal =? ApiTeam.id (ApiMatch.homeTeam m)); reflexivity.
  - apply Forall_app. split; apply dummyGoals_shape; reflexivity.
Qed.

Lemma formatEach_shape (random : nat -> Z) (l : list ApiMatch.t) :
  forall used md,
    In md (FootballAPIService.formatEach random used l) ->
    exists m goalList,
      In m l
      /\ id md = ApiMatch.id m
      /\ status md = ApiMatch.status m
      /\ homeScore md = FootballAPIService.score_or_0 (ApiMatch.fullTime_home m)
      /\ awayScore md = FootballAPIService.score_or_0 (ApiMatch.fullTime_away m)
      /\ goals md = GoalsArray goalList
      /\ Forall (fun g => recognized g = true /\ hasMinute g) goalList
      /\ Spec.minuteOrdered goalList.
Proof.
  induction l as [| m l IH]; intros used md Hin; [contradiction |].
  cbn [FootballAPIService.formatEach] in Hin.
  unfold FootballAPIService.formatMatch in Hin.
  pose proof (extractGoals_shape random used m) as [Hshape Hord].
  destruct (FootballAPIService.extractGoals random used m) as [goalList used'].
  cbn [fst] in Hshape, Hord.
  destruct Hin as [<- | Hin].
  - exists m, goalList. cbn. repeat split; try assumption. left; reflexivity.
  - destruct (IH used' md Hin) as (m' & gl & Hm' & Hrest).
    exists m', gl. split; [right; exact Hm' | exact Hrest].
Qed.

(** X21. Every match [formatMatches] hands to the rest of the program
    is finished, has a goal array whose goals all carry a minute and the
    tag ['home'] or ['away'], and has its goals in ascending minute
    order; so the engine rates it without raising, skips none of its
    goals, and walks them in the order the stable sort by minute
    gives. *)
Theorem formatMatches_output_is_well_formed (random : nat -> Z)
    (matches : list ApiMatch.t) (md : MatchData)
    (Hin : In md (FootballAPIService.formatMatches random matches)) :
  status md = "FINISHED"
  /\ exists goalList r,
      goals md = GoalsArray goalList
      /\ Forall (fun g => recognized g = true /\ hasMinute g) goalList
      /\ Spec.minuteOrdered goalList
      /\ filter recognized goalList = goalList
      /\ Spec.sortByMinute goalList = goalList
      /\ calculateRating md = Return r.
Proof.
  unfold FootballAPIService.formatMatches in Hin.
  destruct (formatEach_shape random _ 0%nat md Hin)
    as (m & goalList & Hm & _ & Hstatus & _ & _ & Hgoals & Hshape & Hord).
  apply filter_In in Hm as [_ Hfin]. apply String.eqb_eq in Hfin.
  split; [congruence |].
  unfold calculateRating. rewrite Hgoals.
  exists goalList. eexists. repeat split; try assumption.
  - clear Hord Hgoals. induction Hshape as [| g l [Hg _] _ IH]; [reflexivity |].
    cbn [filter]. rewrite Hg, IH. reflexivity.
  - apply sortByMinute_ordered, Hord.
Qed.

Lemma formatMatches_output_is_well_formed_witness :
  exists md,
    In md (FootballAPIService.formatMatches sampleRandom
             [apiMatchInPlay; apiMatchWithoutGoals])
    /\ status md = "FINISHED"
    /\ exists goalList r,
        goals md = GoalsArray goalList
        /\ Forall (fun g => recognized g = true /\ hasMinute g) goalList
        /\ Spec.minuteOrdered goalList
        /\ filter recognized goalList = goalList
        /\ Spec.sortByMinute goalList = goalList
        /\ calculateRating md = Return r.
Proof.
  eexists. split.
  - left. reflexivity.
  - apply (formatMatches_output_is_well_formed sampleRandom
             [apiMatchInPlay; apiMatchWithoutGoals]).
    left. reflexivity.
Defined.

Lemma countGoals_perm (test : GoalEvent -> bool) (l l' : list GoalEvent) :
  Permutation l l' -> countGoals test l = countGoals test l'.
Proof.
  unfold countGoals. intros H. f_equal.
  induction H as [| x l l' _ IH | x y l | l l' l'' _ IH1 _ IH2]; cbn [filter].
  - reflexivity.
  - destruct (test x); cbn [List.length]; rewrite IH; reflexivity.
  - destruct (test x), (test y); reflexivity.
  - rewrite IH1. exact IH2.
Qed.

Lemma countGoals_app (test : GoalEvent -> bool) (l l' : list GoalEvent) :
  countGoals test (l ++ l') = countGoals test l + countGoals test l'.
Proof. unfold countGoals. rewrite filter_app, length_app. lia. Qed.

Lemma countGoals_dummyGoals (test : GoalEvent -> bool) (t : string) (count : Z)
    (random : nat -> Z) (first : nat) :
  (forall m s ty, test {| team := t; minute := m; scorer := s; type := ty |}
                  = test {| team := t; minute := None; scorer := None; type := None |}) ->
  countGoals test (FootballAPIService.dummyGoals t count random first)
  = if test {| team := t; minute := None; scorer := None; type := None |}
    then Z.max 0 count else 0.
Proof.
  intros Htest. unfold countGoals, FootballAPIService.dummyGoals.
  assert (Hlen : forall l : list nat,
             List.length
               (filter test
                  (map (fun k => {| team := t; minute := Some (random k + 1);
                                    scorer := Some "Unknown";
                                    type := Some "REGULAR" |}) l))
             = if test {| team := t; minute := None; scorer := None; type := None |}
               then List.length l else 0%nat).
  { induction l as [| k l IH]; cbn [map filter].
    - destruct (test _); reflexivity.
    - rewrite Htest. destruct (test _); cbn [List.length]; rewrite IH; reflexivity. }
  rewrite Hlen, length_seq. destruct (test _); lia.
Qed.

(** X22. When the API gives no goal details, the goals [extractGoals]
    makes up agree with the final score: as many home goals as the home
    score and as many away goals as the away score (none for a negative
    or missing score), each at a minute from 1 to 90 when
    [Math.floor(Math.random() * 90)] lies in 0..89, and one random
    number is drawn per goal. *)
Theorem extractGoals_fallback_matches_score (random : nat -> Z) (used : nat)
    (m : ApiMatch.t)
    (Hnone : ApiMatch.goals m = None \/ ApiMatch.goals m = Some []) :
  let homeScore := FootballAPIService.score_or_0 (ApiMatch.fullTime_home m) in
  let awayScore := FootballAPIService.score_or_0 (ApiMatch.fullTime_away m) in
  let result := FootballAPIService.extractGoals random used m in
  countGoals (fun g => (team g =? "home")%string) (fst result) = Z.max 0 homeScore
  /\ countGoals (fun g => (team g =? "away")%string) (fst result) = Z.max 0 awayScore
  /\ Z.of_nat (List.length (fst result)) = Z.max 0 homeScore + Z.max 0 awayScore
  /\ snd result = (used + Z.to_nat homeScore + Z.to_nat awayScore)%nat
  /\ ((forall k, 0 <= random k <= 89) -> Forall (minuteWithin 1 90) (fst result)).
Proof.
  intros homeScore awayScore result.
  assert (Hresult :
            result
            = (Array_sort FootballAPIService.byMinute
                 (FootballAPIService.dummyGoals "home" homeScore random used
                  ++ FootballAPIService.dummyGoals "away" awayScore random
                       (used + Z.to_nat homeScore)),
               (used + Z.to_nat homeScore + Z.to_nat awayScore)%nat)).
  { unfold result, FootballAPIService.extractGoals.
    destruct Hnone as [-> | ->]; reflexivity. }
  rewrite Hresult. cbn [fst snd].
  split; [| split; [| split; [| split]]].
  - rewrite <- (countGoals_perm _ _ _ (Array_sort_perm _ _)), countGoals_app.
    rewrite !countGoals_dummyGoals by reflexivity. cbn. lia.
  - rewrite <- (countGoals_perm _ _ _ (Array_sort_perm _ _)), countGoals_app.
    rewrite !countGoals_dummyGoals by reflexivity. cbn. lia.
  - rewrite Array_sort_length, length_app.
    unfold FootballAPIService.dummyGoals. rewrite !length_map, !length_seq. lia.
  - reflexivity.
  - intros Hrandom.
    apply (Permutation_Forall (Array_sort_perm _ _)).
    apply Forall_app. split; unfold FootballAPIService.dummyGoals;
      apply Forall_map, Forall_forall; intros k _;
      exists (random k + 1); (split; [reflexivity |]);
      specialize (Hrandom k); lia.
Qed.

Lemma extractGoals_fallback_matches_score_witness :
  countGoals (fun g => (team g =? "home")%string)
             (fst (FootballAPIService.extractGoals sampleRandom 0 apiMatchWithoutGoals))
  = Z.max 0 3
  /\ Forall (minuteWithin 1 90)
            (fst (FootballAPIService.extractGoals sampleRandom 0 apiMatchWithoutGoals)).
Proof.
  destruct (extractGoals_fallback_matches_score sampleRandom 0 apiMatchWithoutGoals
              (or_introl eq_refl))
    as (Hhome & _ & _ & _ & Hminutes).
  split; [exact Hhome |].
  apply Hminutes. intros k. unfold sampleRandom.
  destruct (Nat.modulo k 3) as [| [| n]]; lia.
Defined.

(** ** Rate limiting *)

Lemma fold_min_spec (xs : list Z) :
  forall a,
    In (fold_left Z.min xs a) (a :: xs)
    /\ Forall (fun y => fold_left Z.min xs a <= y) (a :: xs).
Proof.
  induction xs as [| x xs IH]; intros a; cbn [fold_left].
  - split; [left; reflexivity | repeat constructor; lia].
  - destruct (IH (Z.min a x)) as [Hin Hle].
    apply Forall_cons_iff in Hle as [Hhd Htl]. split.
    + destruct Hin as [Hin | Hin]; [| right; right; exact Hin].
      rewrite <- Hin. destruct (Z.min_spec a x) as [[_ ->] | [_ ->]];
        [left; reflexivity | right; left; reflexivity].
    + constructor; [lia |]. constructor; [lia | exact Htl].
Qed.

Lemma filter_drops {A : Type} (f : A -> bool) (l : list A) (x : A) :
  In x l -> f x = false -> (List.length (filter f l) < List.length l)%nat.
Proof.
  induction l as [| a l IH]; cbn [In filter List.length]; [tauto |].
  intros [-> | Hin] Hx.
  - rewrite Hx. pose proof (filter_length_le f l). lia.
  - specialize (IH Hin Hx). destruct (f a); cbn [List.length]; lia.
Qed.

Lemma rateLimitWait_cases (now : Z) (callHistory : list Z) :
  let recent := filter (fun timestamp => timestamp >? now - 60 * 1000) callHistory in
  fst (FootballAPIService.rateLimitWait now callHistory) = recent
  /\ (Z.of_nat (List.length recent) < 10 ->
      snd (FootballAPIService.rateLimitWait now callHistory) = None)
  /\ (10 <= Z.of_nat (List.length recent) ->
      exists oldest,
        In oldest recent
        /\ Forall (fun t => oldest <= t) recent
        /\ snd (FootballAPIService.rateLimitWait now callHistory)
           = Some (oldest + 60 * 1000 - now)
        /\ 0 < oldest + 60 * 1000 - now).
Proof.
  intros recent. unfold FootballAPIService.rateLimitWait.
  fold recent. unfold FootballAPIService.maxCallsPerMinute.
  assert (Hrecent : Forall (fun t => now - 60 * 1000 < t) recent).
  { apply Forall_forall. intros t Ht. apply filter_In in Ht as [_ Ht].
    apply Z.gtb_lt in Ht. exact Ht. }
  destruct recent as [| x xs] eqn:Hlist.
  - cbn. repeat split; try reflexivity. lia.
  - rewrite Z.geb_leb.
    destruct (Z.leb_spec 10 (Z.of_nat (List.length (x :: xs)))) as [Hfull | Hfree].
    + destruct (fold_min_spec xs x) as [Hin Hmin]. fold (Math_min x xs) in Hin, Hmin.
      assert (Hpos : 0 < Math_min x xs + 60 * 1000 - now).
      { rewrite Forall_forall in Hrecent. specialize (Hrecent _ Hin). lia. }
      destruct (Z.gtb_spec (Math_min x xs + 60 * 1000 - now) 0); [| lia].
      cbn [fst snd]. split; [reflexivity |]. split; [lia |].
      intros _. exists (Math_min x xs). repeat split; assumption.
    + cbn [fst snd]. split; [reflexivity |]. split; [reflexivity | lia].
Qed.

(** X23. [enforceRateLimit] makes the caller wait exactly when ten or
    more recorded calls are less than a minute old.  The wait is then
    the time until the oldest of them is a minute old; it is always
    positive (the test [waitTime > 0] never fails), and at most a minute
    when no recorded call lies in the future. *)
Theorem rateLimitWait_when_and_how_long (now : Z) (callHistory : list Z) :
  let recent := filter (fun timestamp => timestamp >? now - 60 * 1000) callHistory in
  fst (FootballAPIService.rateLimitWait now callHistory) = recent
  /\ (Z.of_nat (List.length recent) < 10 ->
      snd (FootballAPIService.rateLimitWait now callHistory) = None)
  /\ (10 <= Z.of_nat (List.length recent) ->
      exists oldest,
        In oldest recent
        /\ Forall (fun t => oldest <= t) recent
        /\ snd (FootballAPIService.rateLimitWait now callHistory)
           = Some (oldest + 60 * 1000 - now)
        /\ 0 < oldest + 60 * 1000 - now
        /\ (Forall (fun t => t <= now) callHistory ->
            oldest + 60 * 1000 - now <= 60 * 1000)).
Proof.
  intros recent.
  destruct (rateLimitWait_cases now callHistory) as (Hfst & Hfree & Hfull).
  fold recent in Hfst, Hfree, Hfull.
  split; [exact Hfst |]. split; [exact Hfree |].
  intros Hten. destruct (Hfull Hten) as (oldest & Hin & Hmin & Hwait & Hpos).
  exists oldest. repeat split; try assumption.
  intros Hpast. apply filter_In in Hin as [Hin _].
  rewrite Forall_forall in Hpast. specialize (Hpast oldest Hin). lia.
Qed.

(** X24. For a caller that runs alone and whose timer does not fire
    early, [enforceRateLimit] keeps the call history at ten entries or
    fewer: a history of at most ten entries is left with at most ten,
    made of entries it had before followed by the time of this call. *)
Theorem enforceRateLimit_bounds_history (now afterWait : Z) (callHistory : list Z)
    (Hsize : Z.of_nat (List.length callHistory) <= 10)
    (Htimer : forall t,
        snd (FootballAPIService.rateLimitWait now callHistory) = Some t ->
        now + t <= afterWait) :
  exists kept,
    FootballAPIService.enforceRateLimit now afterWait callHistory
    = (kept ++ [now])%list
    /\ incl kept callHistory
    /\ Z.of_nat
         (List.length (FootballAPIService.enforceRateLimit now afterWait callHistory))
       <= 10.
Proof.
  unfold FootballAPIService.enforceRateLimit.
  destruct (rateLimitWait_cases now callHistory) as (Hfst & Hfree & Hfull).
  set (recent := filter (fun timestamp => timestamp >? now - 60 * 1000) callHistory)
    in *.
  assert (Hincl : incl recent callHistory).
  { intros t Ht. apply filter_In in Ht. tauto. }
  assert (Hlen : (List.length recent <= List.length callHistory)%nat)
    by apply filter_length_le.
  destruct (FootballAPIService.rateLimitWait now callHistory) as [h wait].
  cbn [fst snd] in *. subst h.
  destruct wait as [t |].
  - destruct (Z.le_gt_cases 10 (Z.of_nat (List.length recent))) as [Hten | Hlt];
      [| specialize (Hfree Hlt); discriminate].
    destruct (Hfull Hten) as (oldest & Hin & _ & Hwait & _).
    injection Hwait as ->. specialize (Htimer _ eq_refl).
    eexists. split; [reflexivity |]. split.
    + intros x Hx. apply filter_In in Hx as [Hx _]. apply Hincl, Hx.
    + rewrite length_app. cbn [List.length].
      assert (Hdrop : (List.length
                         (filter (fun timestamp => timestamp >? afterWait - 60 * 1000)
                                 recent)
                       < List.length recent)%nat).
      { apply (filter_drops _ recent oldest Hin).
        destruct (Z.gtb_spec oldest (afterWait - 60 * 1000)); [lia | reflexivity]. }
      lia.
  - exists recent. split; [reflexivity |]. split; [exact Hincl |].
    rewrite length_app. cbn [List.length].
    destruct (Z.le_gt_cases 10 (Z.of_nat (List.length recent))) as [Hten | Hlt];
      [| lia].
    destruct (Hfull Hten) as (oldest & _ & _ & Hwait & _). discriminate.
Qed.

Lemma rateLimitWait_when_and_how_long_witness :
  exists oldest,
    In oldest (filter (fun timestamp => timestamp >? 20000 - 60 * 1000) fullHistory)
    /\ snd (FootballAPIService.rateLimitWait 20000 fullHistory)
       = Some (oldest + 60 * 1000 - 20000)
    /\ 0 < oldest + 60 * 1000 - 20000 <= 60 * 1000.
Proof.
  destruct (rateLimitWait_when_and_how_long 20000 fullHistory) as (_ & _ & Hfull).
  destruct Hfull as (oldest & Hin & _ & Hwait & Hpos & Hmax); [simpl; lia |].
  exists oldest. split; [exact Hin |]. split; [exact Hwait |].
  split; [exact Hpos |]. apply Hmax.
  unfold fullHistory. repeat constructor; lia.
Defined.

Lemma enforceRateLimit_bounds_history_witness :
  exists kept,
    FootballAPIService.enforceRateLimit 20000 61000 fullHistory = (kept ++ [20000])%list
    /\ incl kept fullHistory
    /\ Z.of_nat
         (List.length (FootballAPIService.enforceRateLimit 20000 61000 fullHistory))
       <= 10.
Proof.
  apply enforceRateLimit_bounds_history.
  - simpl. lia.
  - intros t Ht. vm_compute in Ht. injection Ht as <-. lia.
Defined.

Lemma getTopRatedMatches_are_the_top_witness :
  exists top rest,
    FootballDatabase.getTopRatedMatches 2 sampleStore
    = map (FootballDatabase.presentMatch sampleStore) top
    /\ Permutation (FootballDatabase.matches sampleStore) (top ++ rest)
    /\ Z.of_nat (List.length top) = 2.
Proof.
  destruct (getTopRatedMatches_are_the_top 2 sampleStore)
    as (top & rest & Hmap & Hperm & _ & _ & Hlen).
  exists top, rest. split; [exact Hmap |]. split; [exact Hperm | exact Hlen].
Defined.

(** ** Reading after loading and after saving *)

(** X25. When the matches file is read but there is no ratings file,
    every match is listed with its stored total and label and with a
    breakdown of three zeros. *)
Theorem matches_without_ratings_file (Date_getTime : string -> Z)
    (rows : list MatchRow.t) (vercel : bool) :
  let db :=
    FootballDatabase.loadData (FileRows rows) FileMissing
      (FootballDatabase.constructor vercel) in
  forall p,
    In p (FootballDatabase.getAllMatches Date_getTime db) ->
    exists row,
      In row rows
      /\ PresentedMatch.id p = MatchRow.id row
      /\ PresentedMatch.rating p
         = Some {| PresentedRating.totalScore := MatchRow.watchability_score row;
                   PresentedRating.breakdown :=
                     {| goalVolume := 0; goalTiming := 0; goalDistribution := 0 |};
                   PresentedRating.category :=
                     FootballDatabase.or_Unknown (MatchRow.rating_category row) |}.
Proof.
  intros db p Hp. unfold FootballDatabase.getAllMatches in Hp.
  apply (Permutation_in _ (Permutation_sym (Array_sort_perm _ _))) in Hp.
  apply in_map_iff in Hp as (row & <- & Hrow).
  exists row. split; [exact Hrow |]. split; reflexivity.
Qed.

Lemma matches_without_ratings_file_witness :
  exists p row,
    In p (FootballDatabase.getAllMatches sampleDate
            (FootballDatabase.loadData (FootballDatabase.matchesFileOf savedOnce)
               FileMissing (FootballDatabase.constructor false)))
    /\ PresentedMatch.id p = MatchRow.id row
    /\ PresentedMatch.rating p
       = Some {| PresentedRating.totalScore := MatchRow.watchability_score row;
                 PresentedRating.breakdown :=
                   {| goalVolume := 0; goalTiming := 0; goalDistribution := 0 |};
                 PresentedRating.category :=
                   FootballDatabase.or_Unknown (MatchRow.rating_category row) |}.
Proof.
  assert (Hin : exists p,
             In p (FootballDatabase.getAllMatches sampleDate
                     (FootballDatabase.loadData (FootballDatabase.matchesFileOf savedOnce)
                        FileMissing (FootballDatabase.constructor false))))
    by (eexists; left; reflexivity).
  destruct Hin as [p Hp].
  destruct (matches_without_ratings_file sampleDate
              (FootballDatabase.matches savedOnce) false p Hp)
    as (row & _ & Hid & Hrating).
  exists p, row. split; [exact Hp |]. split; [exact Hid | exact Hrating].
Defined.

Lemma find_present {A : Type} (key : A -> Z) (k : Z) (l : list A) :
  In k (map key l) -> exists a, find (fun a => key a =? k) l = Some a.
Proof.
  induction l as [| a l IH]; cbn [map In find]; [tauto |].
  intros Hin. destruct (Z.eqb_spec (key a) k) as [_ | Hne]; [exists a; reflexivity |].
  apply IH. destruct Hin; [contradiction | assumption].
Qed.

(** X26. Saving a match does not change how the matches already in a
    consistent store are listed: each of them is listed after the save
    exactly as [presentMatch] showed it before. *)
Theorem saveMatch_keeps_listed_matches (Date_getTime : string -> Z)
    (db : FootballDatabase.t) (matchData : MatchData) (ratingData : RatingResult)
    (w : World) (row : MatchRow.t)
    (Hcons : FootballDatabase.consistent db)
    (Hrow : In row (FootballDatabase.matches db)) :
  In (FootballDatabase.presentMatch db row)
     (FootballDatabase.getAllMatches Date_getTime
        (snd (FootballDatabase.saveMatch matchData ratingData w db))).
Proof.
  destruct Hcons as (_ & _ & _ & Hmap).
  unfold FootballDatabase.getAllMatches.
  apply (Permutation_in _ (Array_sort_perm _ _)).
  destruct (find_present RatingRow.match_id (MatchRow.id row)
              (FootballDatabase.ratings db)) as [r Hr].
  { rewrite Hmap. apply in_map, Hrow. }
  unfold FootballDatabase.saveMatch.
  destruct (find _ (FootballDatabase.matches db)).
  - cbn [snd]. apply in_map, Hrow.
  - match goal with
    | |- context [ match ?c with Return _ => _ | Throw _ => _ end ] => destruct c
    end; cbn [snd FootballDatabase.matches];
      rewrite map_app; apply in_or_app; left;
      apply in_map_iff; exists row; (split; [| exact Hrow]);
      unfold FootballDatabase.presentMatch; cbn [FootballDatabase.ratings];
      rewrite (find_app_found _ _ _ _ Hr), Hr; reflexivity.
Qed.

Lemma saveMatch_keeps_listed_matches_witness :
  exists p,
    In p (FootballDatabase.getAllMatches sampleDate
            (snd (FootballDatabase.saveMatch negativeScoreMatch drawWithTwoGoalsRating
                    sampleWorld savedOnce)))
    /\ PresentedMatch.apiId p = 1.
Proof.
  eexists. split.
  - apply (saveMatch_keeps_listed_matches sampleDate savedOnce negativeScoreMatch
             drawWithTwoGoalsRating sampleWorld).
    + apply saveMatch_consistent, constructor_consistent.
    + left. reflexivity.
  - reflexivity.
Defined.
